(** * pycoingecko, asyncapi.py: the request pipeline of the asynchronous client

    A shallow embedding of [src/pycoingecko/asyncapi.py]:
    - [DecodingStreamReader], the incremental decoder in front of a byte
      stream;
    - [CoinGeckoAPI.__request], the request executor with its two-phase
      error discrimination;
    - [CoinGeckoAPI.__api_url_params], the query builder, and a selection of
      the endpoint methods.

    Python values are modelled as follows.  A [str] that ends up in a URL is a
    Rocq [string]; the decoded body of a response is a [text], a list of
    Unicode code points; [bytes] are lists of integers in 0..255; a [dict] is
    an association list in insertion order; an exception is a constructor of
    [exn]; a coroutine function is a state transformer over the [world], which
    records the HTTP requests attempted so far. *)

From Stdlib Require Import String Ascii List ZArith Lia Bool DecimalString.
Import ListNotations.

Local Open Scope string_scope.
Local Open Scope list_scope.
Local Open Scope Z_scope.

(* ================================================================= *)
(** ** Python strings and dictionaries *)

(** The values that callers pass as query parameters.  [py_str] is [str()],
    which is what [str.format] applies to a [{0}] field. *)
Inductive pyval : Type :=
| PStr (s : string)
| PInt (z : Z)
| PBool (b : bool).

Definition py_str (v : pyval) : string :=
  match v with
  | PStr s => s
  | PInt z => NilZero.string_of_int (Z.to_int z)
  | PBool true => "True"
  | PBool false => "False"
  end.

(** A [dict] with [str] keys, in insertion order. *)
Definition dict (V : Type) : Type := list (string * V).

(** [d[key] = value]: an existing key keeps its place, a new one goes last. *)
Fixpoint dict_setitem {V : Type} (d : dict V) (key : string) (value : V) : dict V :=
  match d with
  | [] => [(key, value)]
  | (k, v) :: rest =>
      if String.eqb k key then (k, value) :: rest
      else (k, v) :: dict_setitem rest key value
  end.

(** [s[:-1]] *)
Fixpoint drop_last (s : string) : string :=
  match s with
  | EmptyString => EmptyString
  | String _ EmptyString => EmptyString
  | String c rest => String c (drop_last rest)
  end.

(** [s.replace(' ', '')] *)
Fixpoint remove_spaces (s : string) : string :=
  match s with
  | EmptyString => EmptyString
  | String c rest =>
      if Ascii.eqb c " "%char then remove_spaces rest
      else String c (remove_spaces rest)
  end.

(** A positional argument that the caller may give as a [str] or as a list
    of [str]. *)
Inductive listarg : Type :=
| ArgStr (s : string)
| ArgList (l : list string).

(** Modelled from the spec: the decorator [list_args_to_comma_separated] of
    [pycoingecko/utils.py], which is not among the sources.  Spec 1 and 4.3:
    list-valued arguments are converted into comma-separated strings; every
    other argument is passed on as it is. *)
Definition list_args_to_comma_separated (a : listarg) : string :=
  match a with
  | ArgStr s => s
  | ArgList l => String.concat "," l
  end.

(** An argument of any of the decorated methods: a scalar, or a list of
    [str]. *)
Inductive pyarg : Type :=
| Scalar (v : pyval)
| Several (l : list string).

(** Modelled from the spec: the same decorator, on an argument that need not
    be a [str].  A list becomes the [str] of its items joined by commas, and
    anything else is passed on as it is. *)
Definition arg_to_comma_separated (a : pyarg) : pyval :=
  match a with
  | Scalar v => v
  | Several l => PStr (String.concat "," l)
  end.

(** Modelled from the spec: the decorator on the keyword arguments, value by
    value, every key in its place. *)
Definition kwargs_to_comma_separated (kwargs : dict pyarg) : dict pyval :=
  map (fun item => (fst item, arg_to_comma_separated (snd item))) kwargs.

(* ================================================================= *)
(** ** Text, JSON documents and exceptions *)

(** A decoded [str]: its code points. *)
Definition text : Type := list Z.

(** A [bytes] object: integers in 0..255. *)
Definition bytes : Type := list Z.

Definition codepoint_of_ascii (a : ascii) : Z := Z.of_N (N_of_ascii a).

(** The [text] of an ASCII literal. *)
Fixpoint text_of_string (s : string) : text :=
  match s with
  | EmptyString => []
  | String a rest => codepoint_of_ascii a :: text_of_string rest
  end.

(** What [json.loads] returns: the structured data of the spec. *)
#[warnings="-register-all"]
Inductive json : Type :=
| JNull
| JBool (b : bool)
| JInt (z : Z)
| JStr (s : text)
| JList (items : list json)
| JDict (items : list (text * json)).

(** The exceptions that occur in the request pipeline.  All of them are
    subclasses of [Exception]. *)
Inductive exn : Type :=
| ClientConnectionError (msg : string)   (* aiohttp: the GET failed on the network *)
| TimeoutError                           (* asyncio: the timeout elapsed *)
| ClientResponseError (status : Z)       (* aiohttp: raise_for_status *)
| UnicodeDecodeError (data : bytes)      (* codecs: malformed input *)
| JSONDecodeError (doc : text)           (* json: not a JSON document *)
| ValueError (payload : json)            (* raised by __request itself *)
| UnboundLocalError (name : string)
| NameError (name : string)
| TypeError (msg : string)
| KeyError (key : text).

(** [isinstance(e, json.decoder.JSONDecodeError)].  [JSONDecodeError] is a
    subclass of [ValueError], not the other way round. *)
Definition isinstance_JSONDecodeError (e : exn) : bool :=
  match e with
  | JSONDecodeError _ => true
  | _ => false
  end.

(** A computation that returns or raises. *)
Definition result (A : Type) : Type := (exn + A)%type.

(** Reading a local variable of a function: it is unbound until the first
    assignment to it has been completed. *)
Definition load_local {A : Type} (name : string) (value : option A) : result A :=
  match value with
  | Some v => inr v
  | None => inl (UnboundLocalError name)
  end.

(** The names that [asyncapi.py] binds at module level: its imports and its
    two classes. *)
Definition module_globals : list string :=
  ["json"; "codecs"; "asyncio"; "aiohttp"; "RetryClient"; "ExponentialRetry";
   "list_args_to_comma_separated"; "DecodingStreamReader"; "CoinGeckoAPI"]%string.

(** Reading a name that is neither a local variable nor a builtin. *)
Definition load_global (name : string) : result unit :=
  if existsb (String.eqb name) module_globals then inr tt
  else inl (NameError name).

(* ================================================================= *)
(** ** The UTF-8 codec *)

(** Modelled from the spec: the codec behind [str.encode] and
    [codecs.getincrementaldecoder('utf-8')], part of the Python standard
    library and not among the sources.  Spec 4.1: an incremental decoder,
    strict on malformed sequences, that keeps a multi-byte sequence cut by a
    chunk boundary until its remaining bytes arrive.  The byte ranges are those
    of the well-formed UTF-8 sequences of the Unicode standard; as in CPython,
    the first two bytes of an encoded surrogate at the very end of the input
    are kept like a cut sequence, and rejected once a third byte is there. *)
Definition is_scalar (c : Z) : bool :=
  ((0 <=? c) && (c <? 0xD800)) || ((0xE000 <=? c) && (c <=? 0x10FFFF)).

Definition encode_codepoint (c : Z) : bytes :=
  if c <? 0x80 then [c]
  else if c <? 0x800 then [0xC0 + c / 0x40; 0x80 + c mod 0x40]
  else if c <? 0x10000 then
    [0xE0 + c / 0x1000; 0x80 + (c / 0x40) mod 0x40; 0x80 + c mod 0x40]
  else
    [0xF0 + c / 0x40000; 0x80 + (c / 0x1000) mod 0x40;
     0x80 + (c / 0x40) mod 0x40; 0x80 + c mod 0x40].

(** [s.encode('utf-8')]; [None] stands for the [UnicodeEncodeError] that a
    surrogate raises. *)
Fixpoint utf_8_encode (s : text) : option bytes :=
  match s with
  | [] => Some []
  | c :: rest =>
      if is_scalar c then
        match utf_8_encode rest with
        | Some bs => Some (encode_codepoint c ++ bs)
        | None => None
        end
      else None
  end.

Definition in_range (lo hi b : Z) : bool := (lo <=? b) && (b <=? hi).

Definition is_continuation (b : Z) : bool := in_range 0x80 0xBF b.

(** The second byte of a three- or four-byte sequence is restricted further
    after some lead bytes: no overlong forms, no surrogates, nothing above
    U+10FFFF. *)
Definition second_byte_ok (b0 b1 : Z) : bool :=
  if b0 =? 0xE0 then in_range 0xA0 0xBF b1
  else if b0 =? 0xED then in_range 0x80 0x9F b1
  else if b0 =? 0xF0 then in_range 0x90 0xBF b1
  else if b0 =? 0xF4 then in_range 0x80 0x8F b1
  else is_continuation b1.

Inductive decode_step : Type :=
| StepChar (c : Z) (rest : bytes)   (* one code point decoded *)
| StepEnd                           (* no input left *)
| StepTruncated                     (* the input ends inside a sequence *)
| StepInvalid.                      (* malformed input *)

(** [ED] and one of [A0..BF] with nothing behind them: the cut encoding of
    a surrogate, U+D800..U+DFFF. *)
Definition truncated_surrogate (b0 b1 : Z) (r1 : bytes) : bool :=
  (b0 =? 0xED) && in_range 0xA0 0xBF b1
  && match r1 with [] => true | _ :: _ => false end.

(** One code point off the front of the input.  A sequence that the end of
    the input cuts short is checked as far as it goes. *)
Definition utf_8_step (bs : bytes) : decode_step :=
  match bs with
  | [] => StepEnd
  | b0 :: r0 =>
      if in_range 0 0x7F b0 then StepChar b0 r0
      else if in_range 0xC2 0xDF b0 then
        match r0 with
        | [] => StepTruncated
        | b1 :: r1 =>
            if is_continuation b1
            then StepChar ((b0 - 0xC0) * 0x40 + (b1 - 0x80)) r1
            else StepInvalid
        end
      else if in_range 0xE0 0xEF b0 then
        match r0 with
        | [] => StepTruncated
        | b1 :: r1 =>
            if second_byte_ok b0 b1 then
              match r1 with
              | [] => StepTruncated
              | b2 :: r2 =>
                  if is_continuation b2
                  then StepChar ((b0 - 0xE0) * 0x1000 + (b1 - 0x80) * 0x40
                                 + (b2 - 0x80)) r2
                  else StepInvalid
              end
            else if truncated_surrogate b0 b1 r1 then StepTruncated
            else StepInvalid
        end
      else if in_range 0xF0 0xF4 b0 then
        match r0 with
        | [] => StepTruncated
        | b1 :: r1 =>
            if second_byte_ok b0 b1 then
              match r1 with
              | [] => StepTruncated
              | b2 :: r2 =>
                  if is_continuation b2 then
                    match r2 with
                    | [] => StepTruncated
                    | b3 :: r3 =>
                        if is_continuation b3
                        then StepChar ((b0 - 0xF0) * 0x40000
                                       + (b1 - 0x80) * 0x1000
                                       + (b2 - 0x80) * 0x40 + (b3 - 0x80)) r3
                        else StepInvalid
                    end
                  else StepInvalid
              end
            else StepInvalid
        end
      else StepInvalid
  end.

(** The decoding loop.  Every [StepChar] consumes a byte at least, so a fuel
    of the length of the input is never used up. *)
Fixpoint utf_8_decode_loop (fuel : nat) (bs : bytes) : result (text * bytes) :=
  match fuel with
  | O => inr ([], bs)
  | S fuel' =>
      match utf_8_step bs with
      | StepEnd => inr ([], [])
      | StepTruncated => inr ([], bs)
      | StepInvalid => inl (UnicodeDecodeError bs)
      | StepChar c rest =>
          match utf_8_decode_loop fuel' rest with
          | inl e => inl e
          | inr (t, tail) => inr (c :: t, tail)
          end
      end
  end.

(** [codecs.utf_8_decode(data, 'strict', False)]: the decoded text and the
    bytes not consumed yet, a truncated last sequence. *)
Definition utf_8_decode (data : bytes) : result (text * bytes) :=
  utf_8_decode_loop (length data) data.

(** [codecs.BufferedIncrementalDecoder]: the bytes kept from one call of
    [decode] to the next. *)
Record IncrementalDecoder : Type := { buffer : bytes }.

(** [codecs.getincrementaldecoder('utf-8')(errors='strict')] *)
Definition getincrementaldecoder : IncrementalDecoder := {| buffer := [] |}.

(** [decoder.decode(input)], with [final=False]. *)
Definition IncrementalDecoder_decode (d : IncrementalDecoder) (input : bytes)
  : result text * IncrementalDecoder :=
  match utf_8_decode (buffer d ++ input) with
  | inl e => (inl e, d)
  | inr (t, rest) => (inr t, {| buffer := rest |})
  end.

(* ================================================================= *)
(** ** Streams and the decoding reader *)

(** What [stream.read] hands out. *)
Inductive chunk : Type :=
| Bytes (b : bytes)
| Str (s : text).

(** The interface that [DecodingStreamReader] expects of its stream. *)
Class Stream (St : Type) : Type := {
  stream_read : St -> Z -> chunk * St;
  stream_at_eof : St -> bool
}.

(** Modelled from the spec: [aiohttp.StreamReader], the [content] of a
    response, not among the sources.  Spec 4.1: [read(n)] pulls up to [n]
    bytes, all remaining bytes when [n] is negative; a drained stream gives
    the empty [bytes]. *)
Record StreamReader : Type := { unread : bytes }.

#[export] Instance StreamReader_Stream : Stream StreamReader := {
  stream_read s n :=
    if n <? 0 then (Bytes (unread s), {| unread := [] |})
    else (Bytes (firstn (Z.to_nat n) (unread s)),
          {| unread := skipn (Z.to_nat n) (unread s) |});
  stream_at_eof s := match unread s with [] => true | _ => false end
}.

(** A stream that hands out the chunks as the network delivered them, one
    for each [read]. *)
Record ChunkedStream : Type := { chunks : list chunk }.

#[export] Instance ChunkedStream_Stream : Stream ChunkedStream := {
  stream_read s _ :=
    match chunks s with
    | [] => (Bytes [], s)
    | c :: rest => (c, {| chunks := rest |})
    end;
  stream_at_eof s := match chunks s with [] => true | _ => false end
}.

Module DecodingStreamReader.
Section Reader.
Context {St : Type} `{Stream St}.

Record t : Type := { stream : St; decoder : IncrementalDecoder }.

(** [__init__(self, stream, encoding='utf-8', errors='strict')] *)
Definition __init__ (stream : St) : t :=
  {| stream := stream; decoder := getincrementaldecoder |}.

(** [read(self, n=-1)] *)
Definition read (self : t) (n : Z) : result text * t :=
  let '(data, stream') := stream_read (stream self) n in
  match data with
  | Bytes b =>
      let '(r, decoder') := IncrementalDecoder_decode (decoder self) b in
      (r, {| stream := stream'; decoder := decoder' |})
  | Str s => (inr s, {| stream := stream'; decoder := decoder self |})
  end.

(** [at_eof(self)] *)
Definition at_eof (self : t) : bool := stream_at_eof (stream self).
End Reader.
Arguments t St : clear implicits.
End DecodingStreamReader.

(* ================================================================= *)
(** ** The HTTP layer *)

(** Modelled from the spec: [aiohttp.ClientResponse], not among the sources.
    Spec 4.2 and 9: the body that was received stays readable through
    [content] after the status check has failed. *)
Record ClientResponse : Type := { status : Z; content : StreamReader }.

(** One HTTP GET either fails on the network or is answered. *)
Inductive outcome : Type :=
| Failed (e : exn)
| Responded (r : ClientResponse).

(** The remote side: what the GET number [n] (counted from 0) of a URL
    gives. *)
Definition server : Type := nat -> string -> outcome.

(** The world that a coroutine runs in: the remote side and the URLs of the
    GETs attempted so far, oldest first. *)
Record world : Type := { remote : server; requested : list string }.

Definition coroutine (A : Type) : Type := world -> result A * world.

Definition http_get (url : string) : world -> outcome * world :=
  fun w =>
    (remote w (length (requested w)) url,
     {| remote := remote w; requested := requested w ++ [url] |}).

(** [aiohttp_retry.ExponentialRetry(attempts=..., statuses=...)] *)
Record ExponentialRetry : Type := { attempts : nat; statuses : list Z }.

Definition retryable (opts : ExponentialRetry) (code : Z) : bool :=
  existsb (Z.eqb code) (statuses opts).

(** Modelled from the spec: the retry loop of [aiohttp_retry.RetryClient],
    not among the sources.  Spec 4.2: the GET is retried only when the status
    of the response is in the retryable set, up to the configured number of
    attempts; a failure on the network propagates at once.  The response of
    the last attempt is returned whatever its status.  [retries] is the number
    of attempts left after the next one. *)
Fixpoint RetryClient_do_request (opts : ExponentialRetry) (url : string)
    (retries : nat) (w : world) : result ClientResponse * world :=
  let '(o, w') := http_get url w in
  match o with
  | Failed e => (inl e, w')
  | Responded r =>
      match retries with
      | O => (inr r, w')
      | S retries' =>
          if retryable opts (status r)
          then RetryClient_do_request opts url retries' w'
          else (inr r, w')
      end
  end.

(** [await session.get(url, timeout=...)].  Spec 3: [attempts >= 1]. *)
Definition RetryClient_get (opts : ExponentialRetry) (url : string)
  : coroutine ClientResponse :=
  RetryClient_do_request opts url (Nat.pred (attempts opts)).

(** [response.raise_for_status()]: raises from status 400 on. *)
Definition raise_for_status (r : ClientResponse) : result unit :=
  if 400 <=? status r then inl (ClientResponseError (status r)) else inr tt.

(* ================================================================= *)
(** ** Python objects in an [await] expression *)

(** What the operand of [await] or of a subscription may be: structured data
    or a coroutine that has not run yet. *)
Inductive pyobj : Type :=
| Data (j : json)
| Coroutine (c : coroutine json).

Fixpoint dict_get (items : list (text * json)) (key : text) : option json :=
  match items with
  | [] => None
  | (k, v) :: rest =>
      if list_eq_dec Z.eq_dec k key then Some v else dict_get rest key
  end.

(** [o[key]] for a [str] key. *)
Definition getitem (o : pyobj) (key : string) : result pyobj :=
  match o with
  | Coroutine _ => inl (TypeError "'coroutine' object is not subscriptable")
  | Data (JDict items) =>
      match dict_get items (text_of_string key) with
      | Some v => inr (Data v)
      | None => inl (KeyError (text_of_string key))
      end
  | Data (JList _) => inl (TypeError "list indices must be integers or slices, not str")
  | Data (JStr _) => inl (TypeError "string indices must be integers")
  | Data _ => inl (TypeError "object is not subscriptable")
  end.

(** [await o] *)
Definition await (o : pyobj) : coroutine json :=
  match o with
  | Coroutine c => c
  | Data _ => fun w => (inl (TypeError "object can't be used in 'await' expression"), w)
  end.

(* ================================================================= *)
(** ** The client *)

Module CoinGeckoAPI.

Record t : Type := {
  api_base_url : string;
  request_timeout : Z;
  retry_options : ExponentialRetry
}.

Definition __API_URL_BASE : string := "https://api.coingecko.com/api/v3/".

(** [__init__(self, api_base_url=__API_URL_BASE)] *)
Definition __init__ (api_base_url : string) : t :=
  {| api_base_url := api_base_url;
     request_timeout := 120;
     retry_options := {| attempts := 5; statuses := [502; 503; 504] |} |}.

(** The loop of [__api_url_params]: [api_url += "{0}={1}&".format(key, value)]
    for every item. *)
Fixpoint append_items (api_url : string) (items : dict pyval) : string :=
  match items with
  | [] => api_url
  | (key, value) :: rest =>
      append_items (api_url ++ (key ++ "=" ++ py_str value ++ "&"))%string rest
  end.

(** [__api_url_params(self, api_url, params)] *)
Definition __api_url_params (self : t) (api_url : string) (params : dict pyval)
  : string :=
  match params with
  | [] => api_url
  | _ => drop_last (append_items (api_url ++ "?")%string params)
  end.

Section Request.
(** [json.loads] of the standard library, a parameter of the development:
    [None] stands for [JSONDecodeError]. *)
Variable json_loads : text -> option json.

(** The two lines that both the body of the [try] and its handler run:
    [[
      content_stream = await DecodingStreamReader(stream=response.content).read()
      content = json.loads(content_stream)
    ]]
    The stream is an object shared by both readers, so the response comes
    back with what is left of it. *)
Definition read_content (response : ClientResponse)
  : result json * ClientResponse :=
  let '(r, reader) :=
    DecodingStreamReader.read
      (DecodingStreamReader.__init__ (content response)) (-1) in
  let response' :=
    {| status := status response;
       content := DecodingStreamReader.stream reader |} in
  match r with
  | inl e => (inl e, response')
  | inr content_stream =>
      match json_loads content_stream with
      | Some content => (inr content, response')
      | None => (inl (JSONDecodeError content_stream), response')
      end
  end.

(** The [try] inside the handler; its last statement is a [raise], so it
    always raises, and this is the exception that it raises:
    [[
      content_stream = await DecodingStreamReader(stream=response.content).read()
      content = json.loads(content_stream)
      raise ValueError(content)
    ]]
    [response] is the local variable of that name, [None] when the GET raised
    before the assignment. *)
Definition handler_try (response : option ClientResponse) : exn :=
  match load_local "response" response with
  | inl e => e
  | inr response =>
      match fst (read_content response) with
      | inl e => e
      | inr content => ValueError content
      end
  end.

(** The handler [except Exception as e] of [__request]: what the inner [try]
    raises goes through, unless it is a [JSONDecodeError]; that one is caught
    and passed over, and the bare [raise] raises [e] again. *)
Definition except_handler (e : exn) (response : option ClientResponse) : exn :=
  let e' := handler_try response in
  if isinstance_JSONDecodeError e' then e else e'.

(** [__request(self, url)] *)
Definition __request (self : t) (url : string) : coroutine json :=
  fun w =>
    let '(got, w') := RetryClient_get (retry_options self) url w in
    match got with
    | inl e => (inl (except_handler e None), w')
    | inr response =>
        match raise_for_status response with
        | inl e => (inl (except_handler e (Some response)), w')
        | inr _ =>
            let '(r, response') := read_content response in
            match r with
            | inr content => (inr content, w')
            | inl e => (inl (except_handler e (Some response')), w')
            end
        end
    end.

(** [ping(self)] *)
Definition ping (self : t) : coroutine json :=
  let api_url := (api_base_url self ++ "ping")%string in
  __request self api_url.

(** [get_price(self, ids, vs_currencies, **kwargs)], under the decorator. *)
Definition get_price (self : t) (ids vs_currencies : listarg)
    (kwargs : dict pyval) : coroutine json :=
  let ids := list_args_to_comma_separated ids in
  let vs_currencies := list_args_to_comma_separated vs_currencies in
  let ids := remove_spaces ids in
  let kwargs := dict_setitem kwargs "ids" (PStr ids) in
  let vs_currencies := remove_spaces vs_currencies in
  let kwargs := dict_setitem kwargs "vs_currencies" (PStr vs_currencies) in
  let api_url := (api_base_url self ++ "simple/price")%string in
  let api_url := __api_url_params self api_url kwargs in
  __request self api_url.

(** [get_supported_vs_currencies(self, **kwargs)] *)
Definition get_supported_vs_currencies (self : t) (kwargs : dict pyval)
  : coroutine json :=
  let api_url := (api_base_url self ++ "simple/supported_vs_currencies")%string in
  let api_url := __api_url_params self api_url kwargs in
  __request self api_url.

(** [get_coins_list(self, **kwargs)].  The last line of the source reads
    [return await elf.__request(api_url)], with [elf] for [self]. *)
Definition get_coins_list (self : t) (kwargs : dict pyval) : coroutine json :=
  let api_url := (api_base_url self ++ "coins/list")%string in
  let api_url := __api_url_params self api_url kwargs in
  fun w =>
    match load_global "elf" with
    | inl e => (inl e, w)
    | inr _ => __request self api_url w
    end.

(** [get_exchange_rates(self, **kwargs)] *)
Definition get_exchange_rates (self : t) (kwargs : dict pyval)
  : coroutine json :=
  let api_url := (api_base_url self ++ "exchange_rates")%string in
  let api_url := __api_url_params self api_url kwargs in
  __request self api_url.

(** [get_global(self, **kwargs)].  The last line of the source reads
    [return await self.__request(api_url)['data']]: a subscription binds
    tighter than [await], so the coroutine object is subscripted and the
    result of that is awaited. *)
Definition get_global (self : t) (kwargs : dict pyval) : coroutine json :=
  let api_url := (api_base_url self ++ "global")%string in
  let api_url := __api_url_params self api_url kwargs in
  fun w =>
    match getitem (Coroutine (__request self api_url)) "data" with
    | inl e => (inl e, w)
    | inr o => await o w
    end.

(** [get_global_decentralized_finance_defi(self, **kwargs)] *)
Definition get_global_decentralized_finance_defi (self : t)
    (kwargs : dict pyval) : coroutine json :=
  let api_url :=
    (api_base_url self ++ "global/decentralized_finance_defi")%string in
  let api_url := __api_url_params self api_url kwargs in
  fun w =>
    match getitem (Coroutine (__request self api_url)) "data" with
    | inl e => (inl e, w)
    | inr o => await o w
    end.

(** *** The other endpoint methods *)

(** [get_token_price(self, id, contract_addresses, vs_currencies, **kwargs)],
    under the decorator. *)
Definition get_token_price (self : t) (id : pyarg)
    (contract_addresses vs_currencies : listarg) (kwargs : dict pyarg)
  : coroutine json :=
  let id := arg_to_comma_separated id in
  let contract_addresses := list_args_to_comma_separated contract_addresses in
  let vs_currencies := list_args_to_comma_separated vs_currencies in
  let kwargs := kwargs_to_comma_separated kwargs in
  let contract_addresses := remove_spaces contract_addresses in
  let kwargs := dict_setitem kwargs "contract_addresses" (PStr contract_addresses) in
  let vs_currencies := remove_spaces vs_currencies in
  let kwargs := dict_setitem kwargs "vs_currencies" (PStr vs_currencies) in
  let api_url := (api_base_url self ++ "simple/token_price/" ++ py_str id)%string in
  let api_url := __api_url_params self api_url kwargs in
  __request self api_url.

(** [get_coins(self, **kwargs)], under the decorator. *)
Definition get_coins (self : t) (kwargs : dict pyarg) : coroutine json :=
  let kwargs := kwargs_to_comma_separated kwargs in
  let api_url := (api_base_url self ++ "coins")%string in
  let api_url := __api_url_params self api_url kwargs in
  __request self api_url.

(** [get_coins_markets(self, vs_currency, **kwargs)], under the decorator. *)
Definition get_coins_markets (self : t) (vs_currency : pyarg)
    (kwargs : dict pyarg) : coroutine json :=
  let vs_currency := arg_to_comma_separated vs_currency in
  let kwargs := kwargs_to_comma_separated kwargs in
  let kwargs := dict_setitem kwargs "vs_currency" vs_currency in
  let api_url := (api_base_url self ++ "coins/markets")%string in
  let api_url := __api_url_params self api_url kwargs in
  __request self api_url.

(** [get_coin_by_id(self, id, **kwargs)], under the decorator. *)
Definition get_coin_by_id (self : t) (id : pyarg)
    (kwargs : dict pyarg) : coroutine json :=
  let id := arg_to_comma_separated id in
  let kwargs := kwargs_to_comma_separated kwargs in
  let api_url := (api_base_url self ++ "coins/" ++ py_str id ++ "/")%string in
  let api_url := __api_url_params self api_url kwargs in
  __request self api_url.

(** [get_coin_ticker_by_id(self, id, **kwargs)], under the decorator. *)
Definition get_coin_ticker_by_id (self : t) (id : pyarg)
    (kwargs : dict pyarg) : coroutine json :=
  let id := arg_to_comma_separated id in
  let kwargs := kwargs_to_comma_separated kwargs in
  let api_url := (api_base_url self ++ "coins/" ++ py_str id ++ "/tickers")%string in
  let api_url := __api_url_params self api_url kwargs in
  __request self api_url.

(** [get_coin_history_by_id(self, id, date, **kwargs)], under the decorator. *)
Definition get_coin_history_by_id (self : t) (id date : pyarg)
    (kwargs : dict pyarg) : coroutine json :=
  let id := arg_to_comma_separated id in
  let date := arg_to_comma_separated date in
  let kwargs := kwargs_to_comma_separated kwargs in
  let kwargs := dict_setitem kwargs "date" date in
  let api_url := (api_base_url self ++ "coins/" ++ py_str id ++ "/history")%string in
  let api_url := __api_url_params self api_url kwargs in
  __request self api_url.

(** [get_coin_market_chart_by_id(self, id, vs_currency, days, **kwargs)], under the decorator. *)
Definition get_coin_market_chart_by_id (self : t) (id vs_currency days : pyarg)
    (kwargs : dict pyarg) : coroutine json :=
  let id := arg_to_comma_separated id in
  let vs_currency := arg_to_comma_separated vs_currency in
  let days := arg_to_comma_separated days in
  let kwargs := kwargs_to_comma_separated kwargs in
  let api_url := (api_base_url self ++ "coins/" ++ py_str id ++ "/market_chart?vs_currency=" ++ py_str vs_currency ++ "&days=" ++ py_str days)%string in
  let api_url := __api_url_params self api_url kwargs in
  __request self api_url.

(** [get_coin_market_chart_range_by_id(self, id, vs_currency, from_timestamp, to_timestamp, **kwargs)], under the decorator. *)
Definition get_coin_market_chart_range_by_id (self : t) (id vs_currency from_timestamp to_timestamp : pyarg)
    (kwargs : dict pyarg) : coroutine json :=
  let id := arg_to_comma_separated id in
  let vs_currency := arg_to_comma_separated vs_currency in
  let from_timestamp := arg_to_comma_separated from_timestamp in
  let to_timestamp := arg_to_comma_separated to_timestamp in
  let kwargs := kwargs_to_comma_separated kwargs in
  let api_url := (api_base_url self ++ "coins/" ++ py_str id ++ "/market_chart/range?vs_currency=" ++ py_str vs_currency ++ "&from=" ++ py_str from_timestamp ++ "&to=" ++ py_str to_timestamp)%string in
  let api_url := __api_url_params self api_url kwargs in
  __request self api_url.

(** [get_coin_status_updates_by_id(self, id, **kwargs)], under the decorator. *)
Definition get_coin_status_updates_by_id (self : t) (id : pyarg)
    (kwargs : dict pyarg) : coroutine json :=
  let id := arg_to_comma_separated id in
  let kwargs := kwargs_to_comma_separated kwargs in
  let api_url := (api_base_url self ++ "coins/" ++ py_str id ++ "/status_updates")%string in
  let api_url := __api_url_params self api_url kwargs in
  __request self api_url.

(** [get_coin_ohlc_by_id(self, id, vs_currency, days, **kwargs)], under the decorator. *)
Definition get_coin_ohlc_by_id (self : t) (id vs_currency days : pyarg)
    (kwargs : dict pyarg) : coroutine json :=
  let id := arg_to_comma_separated id in
  let vs_currency := arg_to_comma_separated vs_currency in
  let days := arg_to_comma_separated days in
  let kwargs := kwargs_to_comma_separated kwargs in
  let api_url := (api_base_url self ++ "coins/" ++ py_str id ++ "/ohlc?vs_currency=" ++ py_str vs_currency ++ "&days=" ++ py_str days)%string in
  let api_url := __api_url_params self api_url kwargs in
  __request self api_url.

(** [get_coin_info_from_contract_address_by_id(self, id, contract_address, **kwargs)], under the decorator. *)
Definition get_coin_info_from_contract_address_by_id (self : t) (id contract_address : pyarg)
    (kwargs : dict pyarg) : coroutine json :=
  let id := arg_to_comma_separated id in
  let contract_address := arg_to_comma_separated contract_address in
  let kwargs := kwargs_to_comma_separated kwargs in
  let api_url := (api_base_url self ++ "coins/" ++ py_str id ++ "/contract/" ++ py_str contract_address)%string in
  let api_url := __api_url_params self api_url kwargs in
  __request self api_url.

(** [get_coin_market_chart_from_contract_address_by_id(self, id, contract_address, vs_currency, days, **kwargs)], under the decorator. *)
Definition get_coin_market_chart_from_contract_address_by_id (self : t) (id contract_address vs_currency days : pyarg)
    (kwargs : dict pyarg) : coroutine json :=
  let id := arg_to_comma_separated id in
  let contract_address := arg_to_comma_separated contract_address in
  let vs_currency := arg_to_comma_separated vs_currency in
  let days := arg_to_comma_separated days in
  let kwargs := kwargs_to_comma_separated kwargs in
  let api_url := (api_base_url self ++ "coins/" ++ py_str id ++ "/contract/" ++ py_str contract_address ++ "/market_chart/?vs_currency=" ++ py_str vs_currency ++ "&days=" ++ py_str days)%string in
  let api_url := __api_url_params self api_url kwargs in
  __request self api_url.

(** [get_coin_market_chart_range_from_contract_address_by_id(self, id, contract_address, vs_currency, from_timestamp, to_timestamp, **kwargs)], under the decorator. *)
Definition get_coin_market_chart_range_from_contract_address_by_id (self : t) (id contract_address vs_currency from_timestamp to_timestamp : pyarg)
    (kwargs : dict pyarg) : coroutine json :=
  let id := arg_to_comma_separated id in
  let contract_address := arg_to_comma_separated contract_address in
  let vs_currency := arg_to_comma_separated vs_currency in
  let from_timestamp := arg_to_comma_separated from_timestamp in
  let to_timestamp := arg_to_comma_separated to_timestamp in
  let kwargs := kwargs_to_comma_separated kwargs in
  let api_url := (api_base_url self ++ "coins/" ++ py_str id ++ "/contract/" ++ py_str contract_address ++ "/market_chart/range?vs_currency=" ++ py_str vs_currency ++ "&from=" ++ py_str from_timestamp ++ "&to=" ++ py_str to_timestamp)%string in
  let api_url := __api_url_params self api_url kwargs in
  __request self api_url.

(** [get_exchanges_list(self, **kwargs)] *)
Definition get_exchanges_list (self : t) (kwargs : dict pyval) : coroutine json :=
  let api_url := (api_base_url self ++ "exchanges")%string in
  let api_url := __api_url_params self api_url kwargs in
  __request self api_url.

(** [get_exchanges_id_name_list(self, **kwargs)] *)
Definition get_exchanges_id_name_list (self : t) (kwargs : dict pyval) : coroutine json :=
  let api_url := (api_base_url self ++ "exchanges/list")%string in
  let api_url := __api_url_params self api_url kwargs in
  __request self api_url.

(** [get_exchanges_by_id(self, id, **kwargs)], under the decorator. *)
Definition get_exchanges_by_id (self : t) (id : pyarg)
    (kwargs : dict pyarg) : coroutine json :=
  let id := arg_to_comma_separated id in
  let kwargs := kwargs_to_comma_separated kwargs in
  let api_url := (api_base_url self ++ "exchanges/" ++ py_str id)%string in
  let api_url := __api_url_params self api_url kwargs in
  __request self api_url.

(** [get_exchanges_tickers_by_id(self, id, **kwargs)], under the decorator. *)
Definition get_exchanges_tickers_by_id (self : t) (id : pyarg)
    (kwargs : dict pyarg) : coroutine json :=
  let id := arg_to_comma_separated id in
  let kwargs := kwargs_to_comma_separated kwargs in
  let api_url := (api_base_url self ++ "exchanges/" ++ py_str id ++ "/tickers")%string in
  let api_url := __api_url_params self api_url kwargs in
  __request self api_url.

(** [get_exchanges_status_updates_by_id(self, id, **kwargs)], under the decorator. *)
Definition get_exchanges_status_updates_by_id (self : t) (id : pyarg)
    (kwargs : dict pyarg) : coroutine json :=
  let id := arg_to_comma_separated id in
  let kwargs := kwargs_to_comma_separated kwargs in
  let api_url := (api_base_url self ++ "exchanges/" ++ py_str id ++ "/status_updates")%string in
  let api_url := __api_url_params self api_url kwargs in
  __request self api_url.

(** [get_exchanges_volume_chart_by_id(self, id, days, **kwargs)], under the decorator. *)
Definition get_exchanges_volume_chart_by_id (self : t) (id days : pyarg)
    (kwargs : dict pyarg) : coroutine json :=
  let id := arg_to_comma_separated id in
  let days := arg_to_comma_separated days in
  let kwargs := kwargs_to_comma_separated kwargs in
  let kwargs := dict_setitem kwargs "days" days in
  let api_url := (api_base_url self ++ "exchanges/" ++ py_str id ++ "/volume_chart")%string in
  let api_url := __api_url_params self api_url kwargs in
  __request self api_url.

(** [get_finance_platforms(self, **kwargs)] *)
Definition get_finance_platforms (self : t) (kwargs : dict pyval) : coroutine json :=
  let api_url := (api_base_url self ++ "finance_platforms")%string in
  let api_url := __api_url_params self api_url kwargs in
  __request self api_url.

(** [get_finance_products(self, **kwargs)] *)
Definition get_finance_products (self : t) (kwargs : dict pyval) : coroutine json :=
  let api_url := (api_base_url self ++ "finance_products")%string in
  let api_url := __api_url_params self api_url kwargs in
  __request self api_url.

(** [get_indexes(self, **kwargs)] *)
Definition get_indexes (self : t) (kwargs : dict pyval) : coroutine json :=
  let api_url := (api_base_url self ++ "indexes")%string in
  let api_url := __api_url_params self api_url kwargs in
  __request self api_url.

(** [get_indexes_by_id(self, id, **kwargs)] *)
Definition get_indexes_by_id (self : t) (id : pyval)
    (kwargs : dict pyval) : coroutine json :=
  let api_url := (api_base_url self ++ "indexes/" ++ py_str id)%string in
  let api_url := __api_url_params self api_url kwargs in
  __request self api_url.

(** [get_indexes_list(self, **kwargs)] *)
Definition get_indexes_list (self : t) (kwargs : dict pyval) : coroutine json :=
  let api_url := (api_base_url self ++ "indexes/list")%string in
  let api_url := __api_url_params self api_url kwargs in
  __request self api_url.

(** [get_derivatives(self, **kwargs)] *)
Definition get_derivatives (self : t) (kwargs : dict pyval) : coroutine json :=
  let api_url := (api_base_url self ++ "derivatives")%string in
  let api_url := __api_url_params self api_url kwargs in
  __request self api_url.

(** [get_derivatives_exchanges(self, **kwargs)] *)
Definition get_derivatives_exchanges (self : t) (kwargs : dict pyval) : coroutine json :=
  let api_url := (api_base_url self ++ "derivatives/exchanges")%string in
  let api_url := __api_url_params self api_url kwargs in
  __request self api_url.

(** [get_derivatives_exchanges_by_id(self, id, **kwargs)] *)
Definition get_derivatives_exchanges_by_id (self : t) (id : pyval)
    (kwargs : dict pyval) : coroutine json :=
  let api_url := (api_base_url self ++ "derivatives/exchanges/" ++ py_str id)%string in
  let api_url := __api_url_params self api_url kwargs in
  __request self api_url.

(** [get_derivatives_exchanges_list(self, **kwargs)] *)
Definition get_derivatives_exchanges_list (self : t) (kwargs : dict pyval) : coroutine json :=
  let api_url := (api_base_url self ++ "derivatives/exchanges/list")%string in
  let api_url := __api_url_params self api_url kwargs in
  __request self api_url.

(** [get_status_updates(self, **kwargs)], under the decorator. *)
Definition get_status_updates (self : t) (kwargs : dict pyarg) : coroutine json :=
  let kwargs := kwargs_to_comma_separated kwargs in
  let api_url := (api_base_url self ++ "status_updates")%string in
  let api_url := __api_url_params self api_url kwargs in
  __request self api_url.

(** [get_events(self, **kwargs)], under the decorator. *)
Definition get_events (self : t) (kwargs : dict pyarg) : coroutine json :=
  let kwargs := kwargs_to_comma_separated kwargs in
  let api_url := (api_base_url self ++ "events")%string in
  let api_url := __api_url_params self api_url kwargs in
  __request self api_url.

(** [get_events_countries(self, **kwargs)] *)
Definition get_events_countries (self : t) (kwargs : dict pyval) : coroutine json :=
  let api_url := (api_base_url self ++ "events/countries")%string in
  let api_url := __api_url_params self api_url kwargs in
  __request self api_url.

(** [get_events_types(self, **kwargs)] *)
Definition get_events_types (self : t) (kwargs : dict pyval) : coroutine json :=
  let api_url := (api_base_url self ++ "events/types")%string in
  let api_url := __api_url_params self api_url kwargs in
  __request self api_url.

(** [get_search_trending(self, **kwargs)] *)
Definition get_search_trending (self : t) (kwargs : dict pyval) : coroutine json :=
  let api_url := (api_base_url self ++ "search/trending")%string in
  let api_url := __api_url_params self api_url kwargs in
  __request self api_url.

End Request.
End CoinGeckoAPI.

(* ================================================================= *)
(** ** A reference parser for JSON *)

(** The theorems below hold for every [json_loads].  To run the executor on
    concrete bodies, this module gives a parser for the JSON documents without
    fractions, exponents and [\u] escapes.  A repeated key of an object keeps
    its first place and its last value, as in a Python [dict]. *)
Module RefJson.

Definition ch (a : ascii) : Z := codepoint_of_ascii a.

Definition is_ws (c : Z) : bool :=
  (c =? 32) || (c =? 9) || (c =? 10) || (c =? 13).

Fixpoint skip_ws (s : text) : text :=
  match s with
  | c :: rest => if is_ws c then skip_ws rest else s
  | [] => []
  end.

Fixpoint strip_prefix (p s : text) : option text :=
  match p, s with
  | [], _ => Some s
  | a :: p', b :: s' => if a =? b then strip_prefix p' s' else None
  | _ :: _, [] => None
  end.

Definition is_digit (c : Z) : bool := in_range 48 57 c.

Fixpoint digits (acc : Z) (s : text) : Z * text :=
  match s with
  | c :: rest => if is_digit c then digits (acc * 10 + (c - 48)) rest else (acc, s)
  | [] => (acc, [])
  end.

(** A number: no leading zeros, and nothing of a fraction or an exponent
    may follow. *)
Definition parse_nat (s : text) : option (Z * text) :=
  match s with
  | c :: rest =>
      if c =? 48 then Some (0, rest)
      else if is_digit c then Some (digits 0 s)
      else None
  | [] => None
  end.

Definition integral (r : option (Z * text)) : option (Z * text) :=
  match r with
  | Some (_, c :: _) =>
      if (c =? ch ".") || (c =? ch "e") || (c =? ch "E") || is_digit c
      then None else r
  | _ => r
  end.

Definition unescape (c : Z) : option Z :=
  if c =? 34 then Some 34
  else if c =? ch "\" then Some (ch "\")
  else if c =? ch "/" then Some (ch "/")
  else if c =? ch "b" then Some 8
  else if c =? ch "f" then Some 12
  else if c =? ch "n" then Some 10
  else if c =? ch "r" then Some 13
  else if c =? ch "t" then Some 9
  else None.

(** The characters of a string up to its closing quote. *)
Fixpoint string_body (s : text) : option (text * text) :=
  match s with
  | [] => None
  | c :: rest =>
      if c =? 34 then Some ([], rest)
      else if c =? ch "\" then
        match rest with
        | e :: rest' =>
            match unescape e, string_body rest' with
            | Some u, Some (t, tail) => Some (u :: t, tail)
            | _, _ => None
            end
        | [] => None
        end
      else if c <? 32 then None
      else
        match string_body rest with
        | Some (t, tail) => Some (c :: t, tail)
        | None => None
        end
  end.

Fixpoint jdict_set (items : list (text * json)) (key : text) (value : json)
  : list (text * json) :=
  match items with
  | [] => [(key, value)]
  | (k, v) :: rest =>
      if list_eq_dec Z.eq_dec k key then (k, value) :: rest
      else (k, v) :: jdict_set rest key value
  end.

Fixpoint value (fuel : nat) (s : text) {struct fuel} : option (json * text) :=
  match fuel with
  | O => None
  | S fuel' =>
      match skip_ws s with
      | [] => None
      | c :: rest =>
          if c =? ch "{" then
            match skip_ws rest with
            | c' :: rest' =>
                if c' =? ch "}" then Some (JDict [], rest')
                else
                  match members fuel' [] (c' :: rest') with
                  | Some (items, tail) => Some (JDict items, tail)
                  | None => None
                  end
            | [] => None
            end
          else if c =? ch "[" then
            match skip_ws rest with
            | c' :: rest' =>
                if c' =? ch "]" then Some (JList [], rest')
                else
                  match elements fuel' (c' :: rest') with
                  | Some (items, tail) => Some (JList items, tail)
                  | None => None
                  end
            | [] => None
            end
          else if c =? 34 then
            match string_body rest with
            | Some (t, tail) => Some (JStr t, tail)
            | None => None
            end
          else if c =? ch "-" then
            match integral (parse_nat rest) with
            | Some (n, tail) => Some (JInt (- n), tail)
            | None => None
            end
          else if is_digit c then
            match integral (parse_nat (c :: rest)) with
            | Some (n, tail) => Some (JInt n, tail)
            | None => None
            end
          else
            match strip_prefix (text_of_string "null") (c :: rest) with
            | Some tail => Some (JNull, tail)
            | None =>
                match strip_prefix (text_of_string "true") (c :: rest) with
                | Some tail => Some (JBool true, tail)
                | None =>
                    match strip_prefix (text_of_string "false") (c :: rest) with
                    | Some tail => Some (JBool false, tail)
                    | None => None
                    end
                end
            end
      end
  end

with elements (fuel : nat) (s : text) {struct fuel} : option (list json * text) :=
  match fuel with
  | O => None
  | S fuel' =>
      match value fuel' s with
      | None => None
      | Some (v, rest) =>
          match skip_ws rest with
          | c :: rest' =>
              if c =? ch "," then
                match elements fuel' rest' with
                | Some (vs, tail) => Some (v :: vs, tail)
                | None => None
                end
              else if c =? ch "]" then Some ([v], rest')
              else None
          | [] => None
          end
      end
  end

with members (fuel : nat) (acc : list (text * json)) (s : text) {struct fuel}
  : option (list (text * json) * text) :=
  match fuel with
  | O => None
  | S fuel' =>
      match skip_ws s with
      | c :: rest =>
          if c =? 34 then
            match string_body rest with
            | None => None
            | Some (key, rest1) =>
                match skip_ws rest1 with
                | c1 :: rest2 =>
                    if c1 =? ch ":" then
                      match value fuel' rest2 with
                      | None => None
                      | Some (v, rest3) =>
                          let acc' := jdict_set acc key v in
                          match skip_ws rest3 with
                          | c3 :: rest4 =>
                              if c3 =? ch "," then members fuel' acc' rest4
                              else if c3 =? ch "}" then Some (acc', rest4)
                              else None
                          | [] => None
                          end
                      end
                    else None
                | [] => None
                end
            end
          else None
      | [] => None
      end
  end.

(** [json.loads(s)] on the fragment: one value, and white space around it. *)
Definition loads (s : text) : option json :=
  match value (2 * length s + 2) s with
  | Some (v, tail) =>
      match skip_ws tail with
      | [] => Some v
      | _ :: _ => None
      end
  | None => None
  end.

(** A string literal of a document, between its quotes. *)
Definition quoted (s : string) : text := 34 :: text_of_string s ++ [34].

End RefJson.

(* ================================================================= *)
(** ** The query string as the spec words it *)

(** One [key=value] pair, nothing escaped. *)
Definition query_pair (item : string * pyval) : string :=
  (fst item ++ "=" ++ py_str (snd item))%string.

(** The base URL, and behind a [?] the pairs joined by [&] when there are
    any. *)
Definition url_with_query (api_url : string) (params : dict pyval) : string :=
  match params with
  | [] => api_url
  | _ => (api_url ++ "?" ++ String.concat "&" (map query_pair params))%string
  end.

(* ================================================================= *)
(** ** Remote sides and bodies of the examples *)

Definition respond (code : Z) (body : bytes) : outcome :=
  Responded {| status := code; content := {| unread := body |} |}.

(** A remote side that answers every GET alike. *)
Definition always (o : outcome) : server := fun _ _ => o.

Definition fresh (srv : server) : world := {| remote := srv; requested := [] |}.

(** [{"error": "not found"}] *)
Definition body_not_found : bytes :=
  text_of_string "{" ++ RefJson.quoted "error" ++ text_of_string ": "
  ++ RefJson.quoted "not found" ++ text_of_string "}".

(** [{"data": {"active_cryptocurrencies": 100}}] *)
Definition body_global : bytes :=
  text_of_string "{" ++ RefJson.quoted "data" ++ text_of_string ": {"
  ++ RefJson.quoted "active_cryptocurrencies" ++ text_of_string ": 100}}".

Definition body_oops : bytes := text_of_string "oops".

(** [{"bitcoin": {"usd": 50000}}] *)
Definition body_price : bytes :=
  text_of_string "{" ++ RefJson.quoted "bitcoin" ++ text_of_string ": {"
  ++ RefJson.quoted "usd" ++ text_of_string ": 50000}}".

(** A remote side that answers 503 twice and 200 from then on. *)
Definition flaky : server :=
  fun n _ => if (n <? 2)%nat then respond 503 body_oops else respond 200 body_price.

Definition default_client : CoinGeckoAPI.t :=
  CoinGeckoAPI.__init__ CoinGeckoAPI.__API_URL_BASE.

(** The text that the decoding reader makes of the body of a response, read
    to its end. *)
Definition body_text (r : ClientResponse) : result text :=
  fst (DecodingStreamReader.read
         (DecodingStreamReader.__init__ (content r)) (-1)).

(** How many GETs a coroutine attempted. *)
Definition attempts_made {A : Type} (c : coroutine A) (w : world) : nat :=
  (length (requested (snd (c w))) - length (requested w))%nat.

(* ================================================================= *)
(** ** The public methods as one family *)

(** A call of a public method of the client, with its arguments. *)
Inductive call : Type :=
| Call_ping
| Call_get_price (ids vs_currencies : listarg) (kwargs : dict pyval)
| Call_get_supported_vs_currencies (kwargs : dict pyval)
| Call_get_coins_list (kwargs : dict pyval)
| Call_get_exchange_rates (kwargs : dict pyval)
| Call_get_global (kwargs : dict pyval)
| Call_get_global_decentralized_finance_defi (kwargs : dict pyval)
| Call_get_token_price (id : pyarg) (contract_addresses vs_currencies : listarg) (kwargs : dict pyarg)
| Call_get_coins (kwargs : dict pyarg)
| Call_get_coins_markets (vs_currency : pyarg) (kwargs : dict pyarg)
| Call_get_coin_by_id (id : pyarg) (kwargs : dict pyarg)
| Call_get_coin_ticker_by_id (id : pyarg) (kwargs : dict pyarg)
| Call_get_coin_history_by_id (id date : pyarg) (kwargs : dict pyarg)
| Call_get_coin_market_chart_by_id (id vs_currency days : pyarg) (kwargs : dict pyarg)
| Call_get_coin_market_chart_range_by_id (id vs_currency from_timestamp to_timestamp : pyarg) (kwargs : dict pyarg)
| Call_get_coin_status_updates_by_id (id : pyarg) (kwargs : dict pyarg)
| Call_get_coin_ohlc_by_id (id vs_currency days : pyarg) (kwargs : dict pyarg)
| Call_get_coin_info_from_contract_address_by_id (id contract_address : pyarg) (kwargs : dict pyarg)
| Call_get_coin_market_chart_from_contract_address_by_id (id contract_address vs_currency days : pyarg) (kwargs : dict pyarg)
| Call_get_coin_market_chart_range_from_contract_address_by_id (id contract_address vs_currency from_timestamp to_timestamp : pyarg) (kwargs : dict pyarg)
| Call_get_exchanges_list (kwargs : dict pyval)
| Call_get_exchanges_id_name_list (kwargs : dict pyval)
| Call_get_exchanges_by_id (id : pyarg) (kwargs : dict pyarg)
| Call_get_exchanges_tickers_by_id (id : pyarg) (kwargs : dict pyarg)
| Call_get_exchanges_status_updates_by_id (id : pyarg) (kwargs : dict pyarg)
| Call_get_exchanges_volume_chart_by_id (id days : pyarg) (kwargs : dict pyarg)
| Call_get_finance_platforms (kwargs : dict pyval)
| Call_get_finance_products (kwargs : dict pyval)
| Call_get_indexes (kwargs : dict pyval)
| Call_get_indexes_by_id (id : pyval) (kwargs : dict pyval)
| Call_get_indexes_list (kwargs : dict pyval)
| Call_get_derivatives (kwargs : dict pyval)
| Call_get_derivatives_exchanges (kwargs : dict pyval)
| Call_get_derivatives_exchanges_by_id (id : pyval) (kwargs : dict pyval)
| Call_get_derivatives_exchanges_list (kwargs : dict pyval)
| Call_get_status_updates (kwargs : dict pyarg)
| Call_get_events (kwargs : dict pyarg)
| Call_get_events_countries (kwargs : dict pyval)
| Call_get_events_types (kwargs : dict pyval)
| Call_get_search_trending (kwargs : dict pyval).

(** The method that a call names, applied to the arguments of the call. *)
Definition run (json_loads : text -> option json) (self : CoinGeckoAPI.t)
    (c : call) : coroutine json :=
  match c with
  | Call_ping =>
      CoinGeckoAPI.ping json_loads self
  | Call_get_price ids vs_currencies kwargs =>
      CoinGeckoAPI.get_price json_loads self ids vs_currencies kwargs
  | Call_get_supported_vs_currencies kwargs =>
      CoinGeckoAPI.get_supported_vs_currencies json_loads self kwargs
  | Call_get_coins_list kwargs =>
      CoinGeckoAPI.get_coins_list json_loads self kwargs
  | Call_get_exchange_rates kwargs =>
      CoinGeckoAPI.get_exchange_rates json_loads self kwargs
  | Call_get_global kwargs =>
      CoinGeckoAPI.get_global json_loads self kwargs
  | Call_get_global_decentralized_finance_defi kwargs =>
      CoinGeckoAPI.get_global_decentralized_finance_defi json_loads self kwargs
  | Call_get_token_price id contract_addresses vs_currencies kwargs =>
      CoinGeckoAPI.get_token_price json_loads self id contract_addresses vs_currencies kwargs
  | Call_get_coins kwargs =>
      CoinGeckoAPI.get_coins json_loads self kwargs
  | Call_get_coins_markets vs_currency kwargs =>
      CoinGeckoAPI.get_coins_markets json_loads self vs_currency kwargs
  | Call_get_coin_by_id id kwargs =>
      CoinGeckoAPI.get_coin_by_id json_loads self id kwargs
  | Call_get_coin_ticker_by_id id kwargs =>
      CoinGeckoAPI.get_coin_ticker_by_id json_loads self id kwargs
  | Call_get_coin_history_by_id id date kwargs =>
      CoinGeckoAPI.get_coin_history_by_id json_loads self id date kwargs
  | Call_get_coin_market_chart_by_id id vs_currency days kwargs =>
      CoinGeckoAPI.get_coin_market_chart_by_id json_loads self id vs_currency days kwargs
  | Call_get_coin_market_chart_range_by_id id vs_currency from_timestamp to_timestamp kwargs =>
      CoinGeckoAPI.get_coin_market_chart_range_by_id json_loads self id vs_currency from_timestamp to_timestamp kwargs
  | Call_get_coin_status_updates_by_id id kwargs =>
      CoinGeckoAPI.get_coin_status_updates_by_id json_loads self id kwargs
  | Call_get_coin_ohlc_by_id id vs_currency days kwargs =>
      CoinGeckoAPI.get_coin_ohlc_by_id json_loads self id vs_currency days kwargs
  | Call_get_coin_info_from_contract_address_by_id id contract_address kwargs =>
      CoinGeckoAPI.get_coin_info_from_contract_address_by_id json_loads self id contract_address kwargs
  | Call_get_coin_market_chart_from_contract_address_by_id id contract_address vs_currency days kwargs =>
      CoinGeckoAPI.get_coin_market_chart_from_contract_address_by_id json_loads self id contract_address vs_currency days kwargs
  | Call_get_coin_market_chart_range_from_contract_address_by_id id contract_address vs_currency from_timestamp to_timestamp kwargs =>
      CoinGeckoAPI.get_coin_market_chart_range_from_contract_address_by_id json_loads self id contract_address vs_currency from_timestamp to_timestamp kwargs
  | Call_get_exchanges_list kwargs =>
      CoinGeckoAPI.get_exchanges_list json_loads self kwargs
  | Call_get_exchanges_id_name_list kwargs =>
      CoinGeckoAPI.get_exchanges_id_name_list json_loads self kwargs
  | Call_get_exchanges_by_id id kwargs =>
      CoinGeckoAPI.get_exchanges_by_id json_loads self id kwargs
  | Call_get_exchanges_tickers_by_id id kwargs =>
      CoinGeckoAPI.get_exchanges_tickers_by_id json_loads self id kwargs
  | Call_get_exchanges_status_updates_by_id id kwargs =>
      CoinGeckoAPI.get_exchanges_status_updates_by_id json_loads self id kwargs
  | Call_get_exchanges_volume_chart_by_id id days kwargs =>
      CoinGeckoAPI.get_exchanges_volume_chart_by_id json_loads self id days kwargs
  | Call_get_finance_platforms kwargs =>
      CoinGeckoAPI.get_finance_platforms json_loads self kwargs
  | Call_get_finance_products kwargs =>
      CoinGeckoAPI.get_finance_products json_loads self kwargs
  | Call_get_indexes kwargs =>
      CoinGeckoAPI.get_indexes json_loads self kwargs
  | Call_get_indexes_by_id id kwargs =>
      CoinGeckoAPI.get_indexes_by_id json_loads self id kwargs
  | Call_get_indexes_list kwargs =>
      CoinGeckoAPI.get_indexes_list json_loads self kwargs
  | Call_get_derivatives kwargs =>
      CoinGeckoAPI.get_derivatives json_loads self kwargs
  | Call_get_derivatives_exchanges kwargs =>
      CoinGeckoAPI.get_derivatives_exchanges json_loads self kwargs
  | Call_get_derivatives_exchanges_by_id id kwargs =>
      CoinGeckoAPI.get_derivatives_exchanges_by_id json_loads self id kwargs
  | Call_get_derivatives_exchanges_list kwargs =>
      CoinGeckoAPI.get_derivatives_exchanges_list json_loads self kwargs
  | Call_get_status_updates kwargs =>
      CoinGeckoAPI.get_status_updates json_loads self kwargs
  | Call_get_events kwargs =>
      CoinGeckoAPI.get_events json_loads self kwargs
  | Call_get_events_countries kwargs =>
      CoinGeckoAPI.get_events_countries json_loads self kwargs
  | Call_get_events_types kwargs =>
      CoinGeckoAPI.get_events_types json_loads self kwargs
  | Call_get_search_trending kwargs =>
      CoinGeckoAPI.get_search_trending json_loads self kwargs
  end.

(** The three methods whose last line raises before the executor is
    called. *)
Definition raises_before_request (c : call) : bool :=
  match c with
  | Call_get_coins_list _ => true
  | Call_get_global _ => true
  | Call_get_global_decentralized_finance_defi _ => true
  | _ => false
  end.

(* ================================================================= *)
(** ** Reading a stream chunk by chunk *)

(** Successive calls of [read], one for each [n] of the list, up to the
    first that raises: the texts returned, and the reader afterwards. *)
Fixpoint read_sequence {St : Type} `{Stream St}
    (self : DecodingStreamReader.t St) (ns : list Z)
  : result (list text) * DecodingStreamReader.t St :=
  match ns with
  | [] => (inr [], self)
  | n :: ns' =>
      match DecodingStreamReader.read self n with
      | (inl e, self') => (inl e, self')
      | (inr t, self') =>
          match read_sequence self' ns' with
          | (inl e, self'') => (inl e, self'')
          | (inr ts, self'') => (inr (t :: ts), self'')
          end
      end
  end.

(* ================================================================= *)
(** * Theorems *)

(** ** Strings *)

Lemma drop_last_snoc (s : string) (c : ascii) :
  drop_last (s ++ String c "") = s.
Proof.
  induction s as [| a s IH]; simpl; [reflexivity |].
  rewrite IH. destruct s; reflexivity.
Qed.

Lemma append_assoc' (a b c : string) : ((a ++ b) ++ c = a ++ (b ++ c))%string.
Proof. induction a as [| x a IH]; simpl; [reflexivity | now rewrite IH]. Qed.

Lemma append_items_join (items : dict pyval) :
  forall (prefix : string) (item : string * pyval),
    CoinGeckoAPI.append_items prefix (item :: items)
    = (prefix ++ String.concat "&" (map query_pair (item :: items)) ++ "&")%string.
Proof.
  induction items as [| next items IH]; intros prefix [key value].
  - cbn [CoinGeckoAPI.append_items map String.concat].
    unfold query_pair; cbn [fst snd].
    now rewrite !append_assoc'.
  - change (CoinGeckoAPI.append_items prefix ((key, value) :: next :: items))
      with (CoinGeckoAPI.append_items
              (prefix ++ (key ++ "=" ++ py_str value ++ "&"))%string (next :: items)).
    rewrite IH.
    change (String.concat "&" (map query_pair ((key, value) :: next :: items)))
      with (query_pair (key, value) ++ "&"
            ++ String.concat "&" (map query_pair (next :: items)))%string.
    unfold query_pair at 2; simpl fst; simpl snd.
    now rewrite !append_assoc'.
Qed.

Lemma api_url_params_join (self : CoinGeckoAPI.t) (api_url : string)
    (params : dict pyval) :
  CoinGeckoAPI.__api_url_params self api_url params = url_with_query api_url params.
Proof.
  destruct params as [| item items]; [reflexivity |].
  unfold CoinGeckoAPI.__api_url_params, url_with_query.
  rewrite append_items_join.
  rewrite <- !append_assoc'.
  apply drop_last_snoc.
Qed.

(** ** The UTF-8 codec *)

Lemma in_range_true (lo hi x : Z) : lo <= x <= hi -> in_range lo hi x = true.
Proof. intros. unfold in_range. apply andb_true_iff. split; apply Z.leb_le; lia. Qed.

Lemma in_range_false (lo hi x : Z) : x < lo \/ hi < x -> in_range lo hi x = false.
Proof.
  intros. unfold in_range. apply andb_false_iff.
  destruct (Z.leb_spec lo x); [right; apply Z.leb_gt; lia | now left].
Qed.

Lemma is_scalar_spec (c : Z) :
  is_scalar c = true <-> (0 <= c < 0xD800 \/ 0xE000 <= c <= 0x10FFFF).
Proof.
  unfold is_scalar.
  rewrite orb_true_iff, !andb_true_iff, !Z.leb_le, !Z.ltb_lt. tauto.
Qed.

Ltac arith := Z.div_mod_to_equations; lia.

(** Settles the tests of [utf_8_step] one after the other: a test that the
    hypotheses decide is rewritten to its value, another one is split. *)
Ltac eval_tests :=
  repeat (cbv iota;
    match goal with
    | |- context [in_range ?lo ?hi ?x] =>
        first [ rewrite (in_range_true lo hi x) by arith
              | rewrite (in_range_false lo hi x) by arith ]
    | |- context [?a =? ?b] =>
        first [ rewrite (proj2 (Z.eqb_eq a b)) by arith
              | rewrite (proj2 (Z.eqb_neq a b)) by arith
              | let E := fresh "E" in
                destruct (a =? b) eqn:E;
                [apply Z.eqb_eq in E | apply Z.eqb_neq in E] ]
    end);
  cbv iota.

Lemma utf_8_step_encode (c : Z) (rest : bytes) :
  is_scalar c = true ->
  utf_8_step (encode_codepoint c ++ rest) = StepChar c rest.
Proof.
  intros Hc%is_scalar_spec. unfold encode_codepoint.
  destruct (Z.ltb_spec c 0x80); [| destruct (Z.ltb_spec c 0x800);
    [| destruct (Z.ltb_spec c 0x10000)]];
    cbn [app utf_8_step]; unfold second_byte_ok; unfold is_continuation;
    eval_tests; f_equal; arith.
Qed.

Lemma firstn_length_app {A : Type} (p m : list A) :
  firstn (length p) (p ++ m) = p.
Proof. induction p as [| a p IH]; simpl; [reflexivity | now rewrite IH]. Qed.

Lemma utf_8_step_truncated (c : Z) (p m : bytes) :
  is_scalar c = true ->
  encode_codepoint c = p ++ m -> p <> [] -> m <> [] ->
  utf_8_step p = StepTruncated.
Proof.
  intros Hc%is_scalar_spec Henc Hp Hm.
  assert (Hlen : (0 < length p < length (encode_codepoint c))%nat).
  { rewrite Henc, length_app. destruct p, m; simpl; try congruence; lia. }
  rewrite <- (firstn_length_app p m), <- Henc.
  clear Henc Hp Hm. revert Hlen. generalize (length p) as k. intros k.
  unfold encode_codepoint.
  destruct (Z.ltb_spec c 0x80); [| destruct (Z.ltb_spec c 0x800);
    [| destruct (Z.ltb_spec c 0x10000)]];
    cbn [length]; intros Hlen;
    (destruct k as [| [| [| [| k]]]]; try lia);
    cbn [firstn utf_8_step]; unfold second_byte_ok; unfold is_continuation;
    eval_tests; reflexivity.
Qed.

Lemma utf_8_step_shorter (bs rest : bytes) (c : Z) :
  utf_8_step bs = StepChar c rest -> (length rest < length bs)%nat.
Proof.
  unfold utf_8_step. intros Hstep.
  repeat match type of Hstep with
    | match ?l with [] => _ | _ :: _ => _ end = _ => destruct l; cbn [length]
    | (if ?b then _ else _) = _ => destruct b
    end; try discriminate; injection Hstep as _ <-; lia.
Qed.

Lemma utf_8_decode_loop_fuel (fuel1 : nat) :
  forall (fuel2 : nat) (bs : bytes),
    (length bs <= fuel1)%nat -> (length bs <= fuel2)%nat ->
    utf_8_decode_loop fuel1 bs = utf_8_decode_loop fuel2 bs.
Proof.
  induction fuel1 as [| fuel1 IH]; intros fuel2 bs H1 H2.
  - destruct bs; [| simpl in H1; lia]. destruct fuel2; reflexivity.
  - destruct fuel2 as [| fuel2].
    + destruct bs; [reflexivity | simpl in H2; lia].
    + cbn [utf_8_decode_loop].
      destruct (utf_8_step bs) eqn:Hstep; try reflexivity.
      apply utf_8_step_shorter in Hstep.
      rewrite (IH fuel2 rest) by lia. reflexivity.
Qed.

Lemma utf_8_decode_nil : utf_8_decode [] = inr ([], []).
Proof. reflexivity. Qed.

Lemma utf_8_decode_cons (c : Z) (rest : bytes) :
  is_scalar c = true ->
  utf_8_decode (encode_codepoint c ++ rest)
  = match utf_8_decode rest with
    | inl e => inl e
    | inr (t, tail) => inr (c :: t, tail)
    end.
Proof.
  intros Hc. unfold utf_8_decode.
  pose proof (utf_8_step_encode c rest Hc) as Hstep.
  pose proof (utf_8_step_shorter _ _ _ Hstep) as Hlen.
  destruct (length (encode_codepoint c ++ rest)) as [| fuel]; [lia |].
  cbn [utf_8_decode_loop]. rewrite Hstep.
  rewrite (utf_8_decode_loop_fuel fuel (length rest) rest) by lia.
  reflexivity.
Qed.

Lemma utf_8_decode_truncated (p : bytes) :
  utf_8_step p = StepTruncated -> utf_8_decode p = inr ([], p).
Proof.
  intros Hstep. unfold utf_8_decode.
  destruct p; [discriminate |].
  cbn [length utf_8_decode_loop]. now rewrite Hstep.
Qed.

(** Decoding inverts encoding. *)
Lemma utf_8_decode_encode (s : text) :
  forall bs : bytes, utf_8_encode s = Some bs -> utf_8_decode bs = inr (s, []).
Proof.
  induction s as [| c s IH]; intros bs Henc; cbn [utf_8_encode] in Henc.
  - injection Henc as <-. reflexivity.
  - destruct (is_scalar c) eqn:Hc; [| discriminate].
    destruct (utf_8_encode s) as [bs' |]; [| discriminate].
    injection Henc as <-.
    rewrite utf_8_decode_cons by assumption.
    now rewrite (IH bs' eq_refl).
Qed.

(** Decoding a prefix of an encoding: the code points whose bytes are all
    there, and the bytes of a sequence that the cut fell into.  Those bytes
    and the remaining input are the encoding of the remaining text. *)
Lemma utf_8_decode_prefix (s : text) :
  forall bs c1 c2 : bytes,
    utf_8_encode s = Some bs -> c1 ++ c2 = bs ->
    exists (s1 s2 : text) (kept : bytes),
      utf_8_decode c1 = inr (s1, kept)
      /\ s = s1 ++ s2
      /\ utf_8_encode s2 = Some (kept ++ c2).
Proof.
  induction s as [| c s IH]; intros bs c1 c2 Henc Hsplit.
  - cbn [utf_8_encode] in Henc. injection Henc as <-.
    apply app_eq_nil in Hsplit as [-> ->].
    exists [], [], []. repeat split.
  - pose proof Henc as Hall. cbn [utf_8_encode] in Henc.
    destruct (is_scalar c) eqn:Hc; [| discriminate].
    destruct (utf_8_encode s) as [bs' |] eqn:Hs; [| discriminate].
    injection Henc as <-.
    assert (Hwhole : forall l, c1 = encode_codepoint c ++ l -> bs' = l ++ c2 ->
      exists s1 s2 kept, utf_8_decode c1 = inr (s1, kept)
        /\ c :: s = s1 ++ s2 /\ utf_8_encode s2 = Some (kept ++ c2)).
    { intros l -> Hl.
      destruct (IH bs' l c2 eq_refl (eq_sym Hl)) as (s1 & s2 & kept & Hd & -> & He).
      exists (c :: s1), s2, kept.
      rewrite utf_8_decode_cons, Hd by assumption. repeat split. exact He. }
    apply app_eq_app in Hsplit as [l [[Hc1 Hbs'] | [Hcp Hc2]]].
    + exact (Hwhole l Hc1 Hbs').
    + destruct l as [| b l].
      * apply (Hwhole []).
        -- now rewrite Hcp, !app_nil_r.
        -- now rewrite Hc2.
      * destruct c1 as [| a c1].
        -- exists [], (c :: s), []. repeat split.
           rewrite Hall. f_equal. rewrite Hc2, Hcp. reflexivity.
        -- exists [], (c :: s), (a :: c1). repeat split.
           ++ apply utf_8_decode_truncated.
              apply (utf_8_step_truncated c (a :: c1) (b :: l)); congruence.
           ++ rewrite Hall. f_equal. rewrite Hc2, Hcp. now rewrite <- app_assoc.
Qed.

(** C9: a text whose UTF-8 encoding reaches the decoding reader in two
    chunks, cut anywhere, also inside a multi-byte character, is read back
    unchanged: both reads return text, neither raises, the two texts
    concatenated are the original one, and no byte is left in the decoder. *)
Theorem decoding_reader_two_chunks :
  forall (St : Type) (HS : Stream St) (st0 st1 st2 : St) (n1 n2 : Z)
         (s : text) (bs c1 c2 : bytes),
    utf_8_encode s = Some bs ->
    c1 ++ c2 = bs ->
    stream_read st0 n1 = (Bytes c1, st1) ->
    stream_read st1 n2 = (Bytes c2, st2) ->
    exists (t1 t2 : text) (r1 r2 : DecodingStreamReader.t St),
      DecodingStreamReader.read (DecodingStreamReader.__init__ st0) n1 = (inr t1, r1)
      /\ DecodingStreamReader.read r1 n2 = (inr t2, r2)
      /\ t1 ++ t2 = s
      /\ buffer (DecodingStreamReader.decoder r2) = [].
Proof.
  intros St HS st0 st1 st2 n1 n2 s bs c1 c2 Henc Hsplit Hread1 Hread2.
  destruct (utf_8_decode_prefix s bs c1 c2 Henc Hsplit)
    as (s1 & s2 & kept & Hdec1 & Hs & Henc2).
  exists s1, s2.
  exists {| DecodingStreamReader.stream := st1;
            DecodingStreamReader.decoder := {| buffer := kept |} |}.
  exists {| DecodingStreamReader.stream := st2;
            DecodingStreamReader.decoder := {| buffer := [] |} |}.
  unfold DecodingStreamReader.read, DecodingStreamReader.__init__,
    IncrementalDecoder_decode, getincrementaldecoder.
  cbn [DecodingStreamReader.stream DecodingStreamReader.decoder buffer app].
  rewrite Hread1, Hdec1, Hread2, (utf_8_decode_encode s2 _ Henc2).
  repeat split. now symmetry.
Qed.

(** The euro sign, U+20AC, with the cut after its second byte. *)
Lemma decoding_reader_two_chunks_witness :
  exists (t1 t2 : text) (r1 r2 : DecodingStreamReader.t ChunkedStream),
    DecodingStreamReader.read
      (DecodingStreamReader.__init__
         {| chunks := [Bytes [0xE2; 0x82]; Bytes [0xAC]] |}) (-1) = (inr t1, r1)
    /\ DecodingStreamReader.read r1 (-1) = (inr t2, r2)
    /\ t1 ++ t2 = [0x20AC]
    /\ buffer (DecodingStreamReader.decoder r2) = [].
Proof.
  apply (decoding_reader_two_chunks ChunkedStream _
           {| chunks := [Bytes [0xE2; 0x82]; Bytes [0xAC]] |}
           {| chunks := [Bytes [0xAC]] |} {| chunks := [] |}
           (-1) (-1) [0x20AC] [0xE2; 0x82; 0xAC] [0xE2; 0x82] [0xAC]);
    reflexivity.
Defined.

(** ** The query builder *)

(** C8: with parameters, the query builder returns the base URL, a [?] and
    the [key=value] pairs joined by [&] in the order of the mapping, with no
    separator at the end and nothing escaped; without parameters it returns
    the base URL unchanged. *)
Theorem api_url_params_spec :
  forall (self : CoinGeckoAPI.t) (api_url : string),
    CoinGeckoAPI.__api_url_params self api_url [] = api_url
    /\ forall (item : string * pyval) (items : dict pyval),
         CoinGeckoAPI.__api_url_params self api_url (item :: items)
         = (api_url ++ "?"
            ++ String.concat "&" (map query_pair (item :: items)))%string.
Proof.
  intros self api_url. split; [reflexivity |].
  intros item items. now rewrite api_url_params_join.
Qed.

(** ** The retry loop *)

Lemma do_request_requested (opts : ExponentialRetry) (url : string) (retries : nat) :
  forall (w w' : world) (got : result ClientResponse),
    RetryClient_do_request opts url retries w = (got, w') ->
    remote w' = remote w
    /\ exists n : nat,
         (1 <= n <= S retries)%nat
         /\ requested w' = requested w ++ repeat url n.
Proof.
  induction retries as [| retries IH]; intros w w' got Hrun;
    cbn [RetryClient_do_request http_get] in Hrun.
  - assert (Hw : w' = {| remote := remote w; requested := requested w ++ [url] |})
      by (destruct (remote w (length (requested w)) url);
          injection Hrun as _ <-; reflexivity).
    subst w'. split; [reflexivity |]. exists 1%nat. split; [lia | reflexivity].
  - destruct (remote w (length (requested w)) url) as [e | r].
    + injection Hrun as _ <-. split; [reflexivity |].
      exists 1%nat. split; [lia | reflexivity].
    + destruct (retryable opts (status r)).
      * apply IH in Hrun as [Hremote (n & Hn & Hlog)]. cbn in Hremote, Hlog.
        split; [assumption |]. exists (S n). split; [lia |].
        rewrite Hlog, <- app_assoc. reflexivity.
      * injection Hrun as _ <-. split; [reflexivity |].
        exists 1%nat. split; [lia | reflexivity].
Qed.

(** Against a remote side whose every answer has a retryable status, the
    loop uses all its attempts and hands out the last answer. *)
Lemma do_request_exhausts (opts : ExponentialRetry) (url : string) (retries : nat) :
  forall w : world,
    (forall (n : nat) (u : string),
        exists r, remote w n u = Responded r /\ retryable opts (status r) = true) ->
    exists r : ClientResponse,
      retryable opts (status r) = true
      /\ RetryClient_do_request opts url retries w
         = (inr r, {| remote := remote w;
                      requested := requested w ++ repeat url (S retries) |}).
Proof.
  induction retries as [| retries IH]; intros w Hsrv;
    cbn [RetryClient_do_request http_get];
    destruct (Hsrv (length (requested w)) url) as (r & -> & Hr).
  - exists r. split; [assumption | reflexivity].
  - rewrite Hr.
    destruct (IH {| remote := remote w; requested := requested w ++ [url] |} Hsrv)
      as (r' & Hr' & ->).
    exists r'. split; [assumption |]. cbn [remote requested].
    now rewrite <- app_assoc.
Qed.

Lemma do_request_once (opts : ExponentialRetry) (url : string) (retries : nat)
    (w : world) (r : ClientResponse) :
  remote w (length (requested w)) url = Responded r ->
  retryable opts (status r) = false ->
  RetryClient_do_request opts url retries w
  = (inr r, {| remote := remote w; requested := requested w ++ [url] |}).
Proof.
  intros Hget Hr. destruct retries; cbn [RetryClient_do_request http_get];
    rewrite Hget; [| rewrite Hr]; reflexivity.
Qed.

Lemma do_request_failed (opts : ExponentialRetry) (url : string) (retries : nat)
    (w : world) (e : exn) :
  remote w (length (requested w)) url = Failed e ->
  RetryClient_do_request opts url retries w
  = (inl e, {| remote := remote w; requested := requested w ++ [url] |}).
Proof.
  intros Hget. destruct retries; cbn [RetryClient_do_request http_get];
    rewrite Hget; reflexivity.
Qed.

(** ** The request executor *)

(** [read()] on the content of a response: everything that is left, decoded
    by a decoder that starts empty. *)
Lemma reader_read_all (st : StreamReader) :
  DecodingStreamReader.read (DecodingStreamReader.__init__ st) (-1)
  = match utf_8_decode (unread st) with
    | inl e =>
        (inl e, {| DecodingStreamReader.stream := {| unread := [] |};
                   DecodingStreamReader.decoder := getincrementaldecoder |})
    | inr (t, rest) =>
        (inr t, {| DecodingStreamReader.stream := {| unread := [] |};
                   DecodingStreamReader.decoder := {| buffer := rest |} |})
    end.
Proof.
  cbv [DecodingStreamReader.read DecodingStreamReader.__init__
       DecodingStreamReader.stream DecodingStreamReader.decoder
       stream_read StreamReader_Stream IncrementalDecoder_decode
       getincrementaldecoder buffer app].
  change (-1 <? 0) with true. cbv iota.
  destruct (utf_8_decode (unread st)) as [e | [t rest]]; reflexivity.
Qed.

Section RequestFacts.
Variable json_loads : text -> option json.

Let request := CoinGeckoAPI.__request json_loads.
Let read_content := CoinGeckoAPI.read_content json_loads.


Lemma read_content_text (r : ClientResponse) (t : text) :
  body_text r = inr t ->
  fst (read_content r)
  = match json_loads t with
    | Some content => inr content
    | None => inl (JSONDecodeError t)
    end.
Proof.
  unfold body_text, read_content, CoinGeckoAPI.read_content.
  destruct (DecodingStreamReader.read _ _) as [[e | t'] reader]; cbn [fst];
    intros Ht; [discriminate |].
  injection Ht as ->. destruct (json_loads t); reflexivity.
Qed.


Lemma request_requested (self : CoinGeckoAPI.t) (url : string) (w : world) :
  remote (snd (request self url w)) = remote w
  /\ exists n : nat,
       (1 <= n <= S (Nat.pred (attempts (CoinGeckoAPI.retry_options self))))%nat
       /\ requested (snd (request self url w)) = requested w ++ repeat url n.
Proof.
  unfold request, CoinGeckoAPI.__request, RetryClient_get.
  destruct (RetryClient_do_request _ _ _ _) as [got w'] eqn:Hrun.
  apply do_request_requested in Hrun.
  destruct got as [e | r]; [exact Hrun |].
  destruct (raise_for_status r); [exact Hrun |].
  destruct (CoinGeckoAPI.read_content json_loads r) as [[e | content] r'];
    exact Hrun.
Qed.

End RequestFacts.

(** The success path: an answer that passes the status check and whose body
    is a JSON document is returned parsed. *)
Lemma request_returns_content (json_loads : text -> option json)
    (self : CoinGeckoAPI.t) (url : string) (w w' : world)
    (r : ClientResponse) (t : text) (j : json) :
  RetryClient_get (CoinGeckoAPI.retry_options self) url w = (inr r, w') ->
  status r < 400 ->
  body_text r = inr t ->
  json_loads t = Some j ->
  CoinGeckoAPI.__request json_loads self url w = (inr j, w').
Proof.
  intros Hget Hstatus Hbody Hjson.
  unfold CoinGeckoAPI.__request. rewrite Hget.
  unfold raise_for_status.
  rewrite (proj2 (Z.leb_gt 400 (status r)) Hstatus).
  pose proof (read_content_text json_loads r t Hbody) as Hfirst.
  rewrite Hjson in Hfirst.
  destruct (CoinGeckoAPI.read_content json_loads r) as [first r'].
  cbn [fst] in Hfirst. now subst first.
Qed.

(** C1: when the first answer has a status that is not retried and that
    fails the status check, and its body read through the decoding reader is
    a JSON document, the executor makes that one attempt and raises
    [ValueError] with the parsed document as its payload. *)
Theorem request_raises_api_error :
  forall (json_loads : text -> option json) (self : CoinGeckoAPI.t)
         (url : string) (w : world) (r : ClientResponse) (t : text) (j : json),
    remote w (length (requested w)) url = Responded r ->
    retryable (CoinGeckoAPI.retry_options self) (status r) = false ->
    400 <= status r ->
    body_text r = inr t ->
    json_loads t = Some j ->
    CoinGeckoAPI.__request json_loads self url w
    = (inl (ValueError j),
       {| remote := remote w; requested := requested w ++ [url] |}).
Proof.
  intros json_loads self url w r t j Hget Hretry Hstatus Hbody Hjson.
  unfold CoinGeckoAPI.__request, RetryClient_get.
  rewrite (do_request_once _ _ _ _ r Hget Hretry).
  unfold raise_for_status.
  rewrite (proj2 (Z.leb_le 400 (status r)) Hstatus).
  unfold CoinGeckoAPI.except_handler, CoinGeckoAPI.handler_try, load_local.
  now rewrite (read_content_text json_loads r t Hbody), Hjson.
Qed.

(** Status 404 with the body [{"error": "not found"}]. *)
Lemma request_raises_api_error_witness :
  CoinGeckoAPI.__request RefJson.loads default_client "https://example.org/ping"
    (fresh (always (respond 404 body_not_found)))
  = (inl (ValueError
            (JDict [(text_of_string "error", JStr (text_of_string "not found"))])),
     {| remote := always (respond 404 body_not_found);
        requested := ["https://example.org/ping"%string] |}).
Proof.
  apply (request_raises_api_error RefJson.loads default_client
           "https://example.org/ping"
           (fresh (always (respond 404 body_not_found)))
           {| status := 404; content := {| unread := body_not_found |} |}
           body_not_found);
    first [reflexivity | simpl; lia].
Defined.





Lemma retryable_default (opts : ExponentialRetry) (code : Z) :
  statuses opts = [502; 503; 504] ->
  retryable opts code = true <-> In code [502; 503; 504].
Proof.
  intros Hst. unfold retryable. rewrite Hst. cbn [existsb In].
  rewrite !orb_true_iff, !Z.eqb_eq. intuition (try discriminate; auto).
Qed.

Lemma attempts_made_request (json_loads : text -> option json)
    (self : CoinGeckoAPI.t) (url : string) (w : world) :
  exists n : nat,
    (1 <= n <= S (Nat.pred (attempts (CoinGeckoAPI.retry_options self))))%nat
    /\ requested (snd (CoinGeckoAPI.__request json_loads self url w))
       = requested w ++ repeat url n
    /\ attempts_made (CoinGeckoAPI.__request json_loads self url) w = n.
Proof.
  destruct (request_requested json_loads self url w) as [_ (n & Hn & Hlog)].
  exists n. repeat split; try lia; [exact Hlog |].
  unfold attempts_made. rewrite Hlog, length_app, repeat_length. lia.
Qed.

(** C4: against a remote side that answers every GET with one of the
    statuses 502, 503 and 504, the executor makes as many attempts as the
    retry options say, five for a client as [__init__] makes it, and then
    raises; and whatever the remote side does, it never makes more. *)
Theorem request_retry_bound :
  forall (json_loads : text -> option json) (self : CoinGeckoAPI.t)
         (url : string) (w : world),
    (1 <= attempts (CoinGeckoAPI.retry_options self))%nat ->
    statuses (CoinGeckoAPI.retry_options self) = [502; 503; 504] ->
    (forall (n : nat) (u : string),
        exists r, remote w n u = Responded r /\ In (status r) [502; 503; 504]) ->
    attempts_made (CoinGeckoAPI.__request json_loads self url) w
    = attempts (CoinGeckoAPI.retry_options self)
    /\ (exists e : exn, fst (CoinGeckoAPI.__request json_loads self url w) = inl e)
    /\ forall w0 : world,
         (attempts_made (CoinGeckoAPI.__request json_loads self url) w0
          <= attempts (CoinGeckoAPI.retry_options self))%nat.
Proof.
  intros json_loads self url w Hatt Hst Hsrv.
  assert (Hbound : forall w0 : world,
    (attempts_made (CoinGeckoAPI.__request json_loads self url) w0
     <= attempts (CoinGeckoAPI.retry_options self))%nat).
  { intros w0.
    destruct (attempts_made_request json_loads self url w0) as (n & Hn & _ & ->).
    lia. }
  assert (Hsrv' : forall (n : nat) (u : string),
    exists r, remote w n u = Responded r
              /\ retryable (CoinGeckoAPI.retry_options self) (status r) = true).
  { intros n u. destruct (Hsrv n u) as (r & Hr & Hin).
    exists r. split; [assumption |]. now apply retryable_default. }
  destruct (do_request_exhausts (CoinGeckoAPI.retry_options self) url
              (Nat.pred (attempts (CoinGeckoAPI.retry_options self))) w Hsrv')
    as (r & Hr & Hrun).
  apply (retryable_default _ _ Hst) in Hr.
  assert (Hfail : (400 <=? status r) = true)
    by (apply Z.leb_le; cbn [In] in Hr; lia).
  assert (Hreq : exists e : exn,
    CoinGeckoAPI.__request json_loads self url w
    = (inl e, {| remote := remote w;
                 requested := requested w ++ repeat url
                   (S (Nat.pred (attempts (CoinGeckoAPI.retry_options self)))) |})).
  { unfold CoinGeckoAPI.__request, RetryClient_get. rewrite Hrun.
    unfold raise_for_status. rewrite Hfail. eauto. }
  destruct Hreq as (e & Hreq).
  repeat split; [| exists e; now rewrite Hreq | exact Hbound].
  unfold attempts_made. rewrite Hreq. cbn [snd requested].
  rewrite length_app, repeat_length. lia.
Qed.

(** Status 503 on every attempt, against the client of [__init__]. *)
Lemma request_retry_bound_witness :
  attempts_made
    (CoinGeckoAPI.__request RefJson.loads default_client "https://example.org/ping")
    (fresh (always (respond 503 body_oops)))
  = 5%nat
  /\ (exists e : exn,
        fst (CoinGeckoAPI.__request RefJson.loads default_client
               "https://example.org/ping"
               (fresh (always (respond 503 body_oops)))) = inl e)
  /\ forall w0 : world,
       (attempts_made
          (CoinGeckoAPI.__request RefJson.loads default_client
             "https://example.org/ping") w0 <= 5)%nat.
Proof.
  apply (request_retry_bound RefJson.loads default_client
           "https://example.org/ping" (fresh (always (respond 503 body_oops)))).
  - simpl; lia.
  - reflexivity.
  - intros n u. exists {| status := 503; content := {| unread := body_oops |} |}.
    split; [reflexivity | simpl; auto].
Defined.

(** C3, what the code does: when the GET fails on the network, the handler
    of [__request] evaluates [response.content] although [response] was never
    assigned.  One attempt is made, and the [UnboundLocalError] of that
    evaluation reaches the caller in place of the failure of the GET. *)
Theorem request_network_failure_unbound_response :
  forall (json_loads : text -> option json) (self : CoinGeckoAPI.t)
         (url : string) (e : exn) (log : list string),
    CoinGeckoAPI.__request json_loads self url
      {| remote := always (Failed e); requested := log |}
    = (inl (UnboundLocalError "response"),
       {| remote := always (Failed e); requested := log ++ [url] |})
    /\ forall msg : string,
         UnboundLocalError "response" <> ClientConnectionError msg.
Proof.
  intros json_loads self url e log. split; [| discriminate].
  unfold CoinGeckoAPI.__request, RetryClient_get.
  now rewrite (do_request_failed _ _ _ _ e).
Qed.

(** ** The endpoint methods *)

(** C5, what the code does: [get_global] and
    [get_global_decentralized_finance_defi] subscript the coroutine object
    before it is awaited.  Both raise [TypeError] whatever the remote side
    would answer, and no GET is attempted. *)
Theorem get_global_raises_type_error :
  forall (json_loads : text -> option json) (self : CoinGeckoAPI.t)
         (kwargs : dict pyval) (w : world),
    CoinGeckoAPI.get_global json_loads self kwargs w
    = (inl (TypeError "'coroutine' object is not subscriptable"), w)
    /\ CoinGeckoAPI.get_global_decentralized_finance_defi json_loads self kwargs w
       = (inl (TypeError "'coroutine' object is not subscriptable"), w).
Proof. intros. split; reflexivity. Qed.

(** C6, what the code does: [get_coins_list] raises [NameError] for the name
    [elf] and attempts no GET, while [ping], [get_supported_vs_currencies] and
    [get_exchange_rates] hand out what the executor returns for their URL. *)
Theorem get_coins_list_raises_name_error :
  forall (json_loads : text -> option json) (self : CoinGeckoAPI.t)
         (kwargs : dict pyval) (w : world),
    CoinGeckoAPI.get_coins_list json_loads self kwargs w
    = (inl (NameError "elf"), w)
    /\ CoinGeckoAPI.ping json_loads self w
       = CoinGeckoAPI.__request json_loads self
           (CoinGeckoAPI.api_base_url self ++ "ping")%string w
    /\ CoinGeckoAPI.get_supported_vs_currencies json_loads self kwargs w
       = CoinGeckoAPI.__request json_loads self
           (url_with_query
              (CoinGeckoAPI.api_base_url self ++ "simple/supported_vs_currencies")
              kwargs) w
    /\ CoinGeckoAPI.get_exchange_rates json_loads self kwargs w
       = CoinGeckoAPI.__request json_loads self
           (url_with_query
              (CoinGeckoAPI.api_base_url self ++ "exchange_rates") kwargs) w.
Proof.
  intros. repeat split;
    unfold CoinGeckoAPI.get_supported_vs_currencies, CoinGeckoAPI.get_exchange_rates;
    now rewrite ?api_url_params_join.
Qed.

(** C7: [get_price(ids="bitcoin, ethereum", vs_currencies="usd")] is the
    executor run on the base URL followed by
    [simple/price?ids=bitcoin,ethereum&vs_currencies=usd], and every GET that
    it attempts, one at least, is for that URL. *)
Theorem get_price_url :
  forall (json_loads : text -> option json) (self : CoinGeckoAPI.t) (w : world),
    let url :=
      (CoinGeckoAPI.api_base_url self
       ++ "simple/price?ids=bitcoin,ethereum&vs_currencies=usd")%string in
    let call :=
      CoinGeckoAPI.get_price json_loads self
        (ArgStr "bitcoin, ethereum") (ArgStr "usd") [] in
    call w = CoinGeckoAPI.__request json_loads self url w
    /\ exists n : nat,
         (1 <= n)%nat /\ requested (snd (call w)) = requested w ++ repeat url n.
Proof.
  intros json_loads self w url call.
  assert (Hcall : call w = CoinGeckoAPI.__request json_loads self url w).
  { unfold call, CoinGeckoAPI.get_price.
    rewrite api_url_params_join. cbn. unfold query_pair. cbn.
    now rewrite append_assoc'. }
  split; [exact Hcall |]. rewrite Hcall.
  destruct (attempts_made_request json_loads self url w) as (n & Hn & Hlog & _).
  exists n. split; [lia | exact Hlog].
Qed.


(** ** The model run on the scenarios of the spec *)

(** Spec 8, the end-to-end scenario: three attempts allowed, 503 twice and
    then 200; [get_price] returns the document of the third answer after
    three GETs. *)
Example get_price_after_two_retries :
  let self :=
    {| CoinGeckoAPI.api_base_url := "https://example.org/";
       CoinGeckoAPI.request_timeout := 120;
       CoinGeckoAPI.retry_options :=
         {| attempts := 3; statuses := [502; 503; 504] |} |} in
  let url := "https://example.org/simple/price?ids=bitcoin&vs_currencies=usd"%string in
  CoinGeckoAPI.get_price RefJson.loads self (ArgStr "bitcoin") (ArgStr "usd") []
    (fresh flaky)
  = (inr (JDict [(text_of_string "bitcoin",
                  JDict [(text_of_string "usd", JInt 50000)])]),
     {| remote := flaky; requested := [url; url; url] |}).
Proof. vm_compute. reflexivity. Qed.

(** A list of ids is joined by commas, and further parameters come first in
    the query. *)
Example get_price_of_a_list :
  fst (CoinGeckoAPI.get_price RefJson.loads default_client
         (ArgList ["bitcoin"; "ethereum"]%string) (ArgStr "usd, eur")
         [("include_market_cap"%string, PBool true)]
         (fresh (always (respond 404 body_not_found))))
  = inl (ValueError
           (JDict [(text_of_string "error", JStr (text_of_string "not found"))]))
  /\ requested
       (snd (CoinGeckoAPI.get_price RefJson.loads default_client
               (ArgList ["bitcoin"; "ethereum"]%string) (ArgStr "usd, eur")
               [("include_market_cap"%string, PBool true)]
               (fresh (always (respond 404 body_not_found)))))
     = ["https://api.coingecko.com/api/v3/simple/price?include_market_cap=True&ids=bitcoin,ethereum&vs_currencies=usd,eur"%string].
Proof. split; vm_compute; reflexivity. Qed.

(** The scenario of spec 8, P6: the executor returns the enveloped document,
    whose ["data"] is the inner one, and [get_global] raises. *)
Example get_global_on_an_envelope :
  let w := fresh (always (respond 200 body_global)) in
  let inner := JDict [(text_of_string "active_cryptocurrencies", JInt 100)] in
  fst (CoinGeckoAPI.__request RefJson.loads default_client
         "https://api.coingecko.com/api/v3/global" w)
  = inr (JDict [(text_of_string "data", inner)])
  /\ getitem (Data (JDict [(text_of_string "data", inner)])) "data" = inr (Data inner)
  /\ CoinGeckoAPI.get_global RefJson.loads default_client [] w
     = (inl (TypeError "'coroutine' object is not subscriptable"), w).
Proof. repeat split. Qed.

(** A body that is not text: the [UnicodeDecodeError] of the second read is
    no [JSONDecodeError], so it leaves the handler. *)
Example request_on_an_undecodable_error_body :
  fst (CoinGeckoAPI.__request RefJson.loads default_client
         "https://example.org/ping" (fresh (always (respond 500 [0xFF]))))
  = inl (UnicodeDecodeError [0xFF]).
Proof. reflexivity. Qed.

(* ================================================================= *)
(** * Further properties *)

(** ** The outcome of the executor, case by case *)

Lemma utf_8_decode_loop_error (fuel : nat) :
  forall (bs : bytes) (e : exn),
    utf_8_decode_loop fuel bs = inl e -> exists d : bytes, e = UnicodeDecodeError d.
Proof.
  induction fuel as [| fuel IH]; intros bs e Hrun; cbn [utf_8_decode_loop] in Hrun;
    [discriminate |].
  destruct (utf_8_step bs) as [c rest | | |]; try discriminate.
  - destruct (utf_8_decode_loop fuel rest) as [e' | [t tail]] eqn:Hrest;
      [| discriminate].
    injection Hrun as <-. exact (IH rest e' Hrest).
  - injection Hrun as <-. now exists bs.
Qed.







(** ** The decoder: what it accepts and what it holds back *)

Lemma StepChar_inj (a c : Z) (r rest : bytes) :
  StepChar a r = StepChar c rest -> a = c /\ r = rest.
Proof. intros Heq. now injection Heq. Qed.

Lemma in_range_spec (lo hi x : Z) : in_range lo hi x = true -> lo <= x <= hi.
Proof.
  unfold in_range. rewrite andb_true_iff, !Z.leb_le. tauto.
Qed.

Lemma in_range_false_spec (lo hi x : Z) :
  in_range lo hi x = false -> x < lo \/ hi < x.
Proof.
  unfold in_range. rewrite andb_false_iff, !Z.leb_gt. tauto.
Qed.

Lemma second_byte_ok_spec (b0 b1 : Z) :
  second_byte_ok b0 b1 = true ->
  0x80 <= b1 <= 0xBF
  /\ (b0 = 0xE0 -> 0xA0 <= b1) /\ (b0 = 0xED -> b1 <= 0x9F)
  /\ (b0 = 0xF0 -> 0x90 <= b1) /\ (b0 = 0xF4 -> b1 <= 0x8F).
Proof.
  unfold second_byte_ok, is_continuation.
  destruct (Z.eqb_spec b0 0xE0); [intros H%in_range_spec; lia |].
  destruct (Z.eqb_spec b0 0xED); [intros H%in_range_spec; lia |].
  destruct (Z.eqb_spec b0 0xF0); [intros H%in_range_spec; lia |].
  destruct (Z.eqb_spec b0 0xF4); intros H%in_range_spec; lia.
Qed.

Lemma truncated_surrogate_spec (b0 b1 : Z) (r1 : bytes) :
  truncated_surrogate b0 b1 r1 = true ->
  b0 = 0xED /\ 0xA0 <= b1 <= 0xBF /\ r1 = [].
Proof.
  unfold truncated_surrogate.
  rewrite !andb_true_iff, Z.eqb_eq. intros [[Hb0 Hb1%in_range_spec] Hr1].
  destruct r1; [tauto | discriminate].
Qed.

(** Takes the tests of [utf_8_step] in a hypothesis apart, one branch for
    each way through the function. *)
Ltac step_cases H :=
  repeat match type of H with
    | (if ?b then _ else _) = _ =>
        let E := fresh "E" in destruct b eqn:E
    | match ?l with [] => _ | _ :: _ => _ end = _ => destruct l
    end;
  try discriminate H.

Ltac test_facts :=
  unfold is_continuation in *;
  repeat match goal with
    | E : in_range _ _ _ = true |- _ => apply in_range_spec in E
    | E : in_range _ _ _ = false |- _ => apply in_range_false_spec in E
    | E : second_byte_ok _ _ = true |- _ => apply second_byte_ok_spec in E
    | E : truncated_surrogate _ _ _ = true |- _ =>
        apply truncated_surrogate_spec in E; destruct E as (? & ? & ->)
    end.

Ltac eval_ltb :=
  repeat match goal with
    | |- context [?a <? ?b] =>
        first [ rewrite (proj2 (Z.ltb_lt a b)) by arith
              | rewrite (proj2 (Z.ltb_ge a b)) by arith ]
    end;
  cbv iota.

(** A code point that the decoder accepts is a scalar value, and the bytes
    that it took for it are the encoding of that value, never another form
    of it. *)
Lemma utf_8_step_char (bs rest : bytes) (c : Z) :
  utf_8_step bs = StepChar c rest ->
  is_scalar c = true /\ bs = encode_codepoint c ++ rest.
Proof.
  unfold utf_8_step. intros Hstep. destruct bs as [| b0 r0]; [discriminate |].
  step_cases Hstep; apply StepChar_inj in Hstep as [<- <-]; test_facts;
    (split; [apply is_scalar_spec; lia |]);
    unfold encode_codepoint; eval_ltb; cbn [app]; repeat f_equal; arith.
Qed.

Lemma utf_8_step_truncated_length (bs : bytes) :
  utf_8_step bs = StepTruncated -> (1 <= length bs <= 3)%nat.
Proof.
  unfold utf_8_step. intros Hstep. destruct bs as [| b0 r0]; [discriminate |].
  step_cases Hstep; test_facts; cbn [length]; lia.
Qed.

Lemma utf_8_decode_loop_sound (fuel : nat) :
  forall (bs rest : bytes) (t : text),
    (length bs <= fuel)%nat ->
    utf_8_decode_loop fuel bs = inr (t, rest) ->
    exists enc : bytes,
      utf_8_encode t = Some enc
      /\ bs = enc ++ rest
      /\ (rest = [] \/ utf_8_step rest = StepTruncated).
Proof.
  induction fuel as [| fuel IH]; intros bs rest t Hlen Hrun;
    cbn [utf_8_decode_loop] in Hrun.
  - destruct bs; [| simpl in Hlen; lia].
    injection Hrun as <- <-. exists []. repeat split. now left.
  - destruct (utf_8_step bs) as [c tail | | |] eqn:Hstep; try discriminate.
    + destruct (utf_8_decode_loop fuel tail) as [e | [t' rest']] eqn:Htail;
        [discriminate |].
      injection Hrun as <- <-.
      pose proof (utf_8_step_shorter _ _ _ Hstep) as Hshort.
      destruct (utf_8_step_char _ _ _ Hstep) as [Hc ->].
      destruct (IH tail rest' t' ltac:(lia) Htail) as (enc & Henc & -> & Hrest).
      exists (encode_codepoint c ++ enc). cbn [utf_8_encode].
      rewrite Hc, Henc, app_assoc. repeat split. exact Hrest.
    + injection Hrun as <- <-.
      destruct bs as [| b0 r0];
        [| exfalso; unfold utf_8_step in Hstep; step_cases Hstep].
      exists []. repeat split. now left.
    + injection Hrun as <- <-. exists []. repeat split. now right.
Qed.

(** What a call of the decoder leaves unconsumed is given back unchanged, and
    undecoded, by a call on it alone. *)
Lemma utf_8_decode_held_back (rest : bytes) :
  rest = [] \/ utf_8_step rest = StepTruncated ->
  utf_8_decode rest = inr ([], rest).
Proof.
  intros [-> | Hstep]; [reflexivity | now apply utf_8_decode_truncated].
Qed.

(** X3: a call of [read] that is handed bytes and returns text returns
    exactly the text of the bytes that it consumed: encoding the text gives
    those bytes back, what is not consumed waits in the decoder, and that is
    never more than three bytes. *)
Theorem read_returns_the_text_of_its_bytes :
  forall (St : Type) (HS : Stream St) (self self' : DecodingStreamReader.t St)
         (n : Z) (b : bytes) (st' : St) (t : text),
    stream_read (DecodingStreamReader.stream self) n = (Bytes b, st') ->
    DecodingStreamReader.read self n = (inr t, self') ->
    exists enc : bytes,
      utf_8_encode t = Some enc
      /\ buffer (DecodingStreamReader.decoder self) ++ b
         = enc ++ buffer (DecodingStreamReader.decoder self')
      /\ (length (buffer (DecodingStreamReader.decoder self')) <= 3)%nat.
Proof.
  intros St HS self self' n b st' t Hstream Hread.
  unfold DecodingStreamReader.read, IncrementalDecoder_decode in Hread.
  rewrite Hstream in Hread.
  destruct (utf_8_decode (buffer (DecodingStreamReader.decoder self) ++ b))
    as [e | [t' rest]] eqn:Hdec; [discriminate |].
  injection Hread as <- <-.
  cbn [DecodingStreamReader.decoder buffer].
  destruct (utf_8_decode_loop_sound _ _ _ _ (le_n _) Hdec)
    as (enc & Henc & Hdata & Hrest).
  exists enc. repeat split; try assumption.
  destruct Hrest as [-> | Hrest]; [simpl; lia |].
  apply utf_8_step_truncated_length in Hrest. lia.
Qed.

(** The bytes of "a", of the euro sign and the first byte of another. *)
Lemma read_returns_the_text_of_its_bytes_witness :
  exists enc : bytes,
    utf_8_encode [0x61; 0x20AC] = Some enc
    /\ [] ++ [0x61; 0xE2; 0x82; 0xAC; 0xE2] = enc ++ [0xE2]
    /\ (length [0xE2] <= 3)%nat.
Proof.
  apply (read_returns_the_text_of_its_bytes ChunkedStream _
           (DecodingStreamReader.__init__
              {| chunks := [Bytes [0x61; 0xE2; 0x82; 0xAC; 0xE2]] |})
           {| DecodingStreamReader.stream := {| chunks := [] |};
              DecodingStreamReader.decoder := {| buffer := [0xE2] |} |}
           (-1) [0x61; 0xE2; 0x82; 0xAC; 0xE2] {| chunks := [] |}
           [0x61; 0x20AC]);
    reflexivity.
Defined.

Lemma utf_8_decode_truncated_tail (s : text) :
  forall (bs p : bytes),
    utf_8_encode s = Some bs ->
    p = [] \/ utf_8_step p = StepTruncated ->
    utf_8_decode (bs ++ p) = inr (s, p).
Proof.
  induction s as [| c s IH]; intros bs p Henc Hp; cbn [utf_8_encode] in Henc.
  - injection Henc as <-. now apply utf_8_decode_held_back.
  - destruct (is_scalar c) eqn:Hc; [| discriminate].
    destruct (utf_8_encode s) as [bs' |]; [| discriminate].
    injection Henc as <-.
    rewrite <- app_assoc, utf_8_decode_cons by assumption.
    now rewrite (IH bs' p eq_refl Hp).
Qed.

(** X4: a body that ends inside a multi-byte character is read without an
    error.  [read()] returns the text before the cut, the reader reports the
    end of the stream, and the bytes of the unfinished character stay in the
    decoder, where nothing reads them. *)
Theorem read_drops_an_unfinished_character :
  forall (s : text) (bs p m : bytes) (c : Z),
    utf_8_encode s = Some bs ->
    is_scalar c = true ->
    encode_codepoint c = p ++ m ->
    p <> [] -> m <> [] ->
    exists reader : DecodingStreamReader.t StreamReader,
      DecodingStreamReader.read
        (DecodingStreamReader.__init__ {| unread := bs ++ p |}) (-1)
      = (inr s, reader)
      /\ DecodingStreamReader.at_eof reader = true
      /\ buffer (DecodingStreamReader.decoder reader) = p.
Proof.
  intros s bs p m c Henc Hc Hsplit Hp Hm.
  rewrite reader_read_all. cbn [unread].
  rewrite (utf_8_decode_truncated_tail s bs p Henc)
    by (right; exact (utf_8_step_truncated c p m Hc Hsplit Hp Hm)).
  eexists. repeat split.
Qed.

(** The text "ok" and the first two of the three bytes of the euro sign. *)
Lemma read_drops_an_unfinished_character_witness :
  exists reader : DecodingStreamReader.t StreamReader,
    DecodingStreamReader.read
      (DecodingStreamReader.__init__
         {| unread := [0x6F; 0x6B] ++ [0xE2; 0x82] |}) (-1)
    = (inr [0x6F; 0x6B], reader)
    /\ DecodingStreamReader.at_eof reader = true
    /\ buffer (DecodingStreamReader.decoder reader) = [0xE2; 0x82].
Proof.
  apply (read_drops_an_unfinished_character
           [0x6F; 0x6B] [0x6F; 0x6B] [0xE2; 0x82] [0xAC] 0x20AC);
    first [reflexivity | discriminate].
Defined.

(** X5: the executor takes a body that ends inside a multi-byte character
    for the text before the cut: with a status that passes the check and that
    text a JSON document, it returns the document. *)
Theorem request_accepts_a_cut_body :
  forall (json_loads : text -> option json) (self : CoinGeckoAPI.t)
         (url : string) (w w' : world) (r : ClientResponse)
         (s : text) (bs p m : bytes) (c : Z) (j : json),
    RetryClient_get (CoinGeckoAPI.retry_options self) url w = (inr r, w') ->
    status r < 400 ->
    unread (content r) = bs ++ p ->
    utf_8_encode s = Some bs ->
    is_scalar c = true ->
    encode_codepoint c = p ++ m ->
    p <> [] -> m <> [] ->
    json_loads s = Some j ->
    CoinGeckoAPI.__request json_loads self url w = (inr j, w').
Proof.
  intros json_loads self url w w' r s bs p m c j
    Hget Hstatus Hbody Henc Hc Hsplit Hp Hm Hjson.
  apply (request_returns_content json_loads self url w w' r s j);
    try assumption.
  unfold body_text. rewrite reader_read_all, Hbody.
  now rewrite (utf_8_decode_truncated_tail s bs p Henc)
    by (right; exact (utf_8_step_truncated c p m Hc Hsplit Hp Hm)).
Qed.

(** Status 200 with the body [{}] followed by the first two bytes of the
    euro sign. *)
Lemma request_accepts_a_cut_body_witness :
  CoinGeckoAPI.__request RefJson.loads default_client "https://example.org/ping"
    (fresh (always (respond 200 (text_of_string "{}" ++ [0xE2; 0x82]))))
  = (inr (JDict []),
     {| remote := always (respond 200 (text_of_string "{}" ++ [0xE2; 0x82]));
        requested := ["https://example.org/ping"%string] |}).
Proof.
  apply (request_accepts_a_cut_body RefJson.loads default_client
           "https://example.org/ping"
           (fresh (always (respond 200 (text_of_string "{}" ++ [0xE2; 0x82]))))
           {| remote := always (respond 200 (text_of_string "{}" ++ [0xE2; 0x82]));
              requested := ["https://example.org/ping"%string] |}
           {| status := 200;
              content := {| unread := text_of_string "{}" ++ [0xE2; 0x82] |} |}
           (text_of_string "{}") (text_of_string "{}") [0xE2; 0x82] [0xAC] 0x20AC);
    first [reflexivity | discriminate | simpl; lia].
Defined.

(** ** Any number of chunks *)

Lemma read_sequence_chunks (cs : list bytes) :
  forall (kept : bytes) (s : text) (ns : list Z) (others : list chunk),
    utf_8_encode s = Some (kept ++ concat cs) ->
    kept = [] \/ utf_8_step kept = StepTruncated ->
    length ns = length cs ->
    exists ts : list text,
      read_sequence
        {| DecodingStreamReader.stream := {| chunks := map Bytes cs ++ others |};
           DecodingStreamReader.decoder := {| buffer := kept |} |} ns
      = (inr ts,
         {| DecodingStreamReader.stream := {| chunks := others |};
            DecodingStreamReader.decoder := {| buffer := [] |} |})
      /\ concat ts = s
      /\ length ts = length cs.
Proof.
  induction cs as [| c cs IH]; intros kept s ns others Henc Hkept Hlen.
  - destruct ns; [| discriminate]. cbn [concat] in Henc.
    rewrite app_nil_r in Henc.
    pose proof (utf_8_decode_encode s kept Henc) as Hdec.
    rewrite (utf_8_decode_held_back kept Hkept) in Hdec.
    injection Hdec as <- ->.
    exists []. repeat split.
  - destruct ns as [| n ns]; [discriminate |]. injection Hlen as Hlen.
    cbn [concat] in Henc. rewrite app_assoc in Henc.
    destruct (utf_8_decode_prefix s _ (kept ++ c) (concat cs) Henc eq_refl)
      as (s1 & s2 & kept' & Hdec & -> & Henc2).
    destruct (utf_8_decode_loop_sound _ _ _ _ (le_n _) Hdec)
      as (_ & _ & _ & Hkept').
    destruct (IH kept' s2 ns others Henc2 Hkept' Hlen) as (ts & Hrun & <- & Hts).
    exists (s1 :: ts).
    cbn [read_sequence map app].
    unfold DecodingStreamReader.read at 1, IncrementalDecoder_decode.
    cbn [DecodingStreamReader.stream DecodingStreamReader.decoder buffer
         stream_read ChunkedStream_Stream chunks].
    rewrite Hdec, Hrun. repeat split. cbn [length]. now rewrite Hts.
Qed.

(** X6: a text whose UTF-8 encoding arrives in any number of chunks, cut
    anywhere, is read back unchanged: as many calls of [read] as there are
    chunks return texts that, joined, are the original, and the decoder is
    left empty. *)
Theorem read_sequence_roundtrip :
  forall (s : text) (cs : list bytes) (ns : list Z) (others : list chunk),
    utf_8_encode s = Some (concat cs) ->
    length ns = length cs ->
    exists ts : list text,
      read_sequence
        (DecodingStreamReader.__init__ {| chunks := map Bytes cs ++ others |}) ns
      = (inr ts,
         {| DecodingStreamReader.stream := {| chunks := others |};
            DecodingStreamReader.decoder := {| buffer := [] |} |})
      /\ concat ts = s
      /\ length ts = length cs.
Proof.
  intros s cs ns others Henc Hlen.
  apply (read_sequence_chunks cs [] s ns others); [exact Henc | now left | exact Hlen].
Qed.

(** U+10348 in four chunks of one byte each, behind the letter "a". *)
Lemma read_sequence_roundtrip_witness :
  exists ts : list text,
    read_sequence
      (DecodingStreamReader.__init__
         {| chunks := map Bytes [[0x61; 0xF0]; [0x90]; [0x8D]; [0x88]] ++ [] |})
      [-1; -1; -1; -1]
    = (inr ts,
       {| DecodingStreamReader.stream := {| chunks := [] |};
          DecodingStreamReader.decoder := {| buffer := [] |} |})
    /\ concat ts = [0x61; 0x10348]
    /\ length ts = length [[0x61; 0xF0]; [0x90]; [0x8D]; [0x88]].
Proof.
  apply (read_sequence_roundtrip [0x61; 0x10348]
           [[0x61; 0xF0]; [0x90]; [0x8D]; [0x88]] [-1; -1; -1; -1] []);
    reflexivity.
Defined.

(** X7: a chunk that is text already is handed through as it is, also
    between the two halves of a character: the bytes that wait in the decoder
    are not touched, and the character is completed by the next bytes. *)
Theorem read_passes_text_through :
  forall (St : Type) (HS : Stream St) (st0 st1 st2 st3 : St) (n1 n2 n3 : Z)
         (s x : text) (c1 c2 : bytes),
    utf_8_encode s = Some (c1 ++ c2) ->
    stream_read st0 n1 = (Bytes c1, st1) ->
    stream_read st1 n2 = (Str x, st2) ->
    stream_read st2 n3 = (Bytes c2, st3) ->
    exists t1 t2 : text,
      read_sequence (DecodingStreamReader.__init__ st0) [n1; n2; n3]
      = (inr [t1; x; t2],
         {| DecodingStreamReader.stream := st3;
            DecodingStreamReader.decoder := {| buffer := [] |} |})
      /\ t1 ++ t2 = s.
Proof.
  intros St HS st0 st1 st2 st3 n1 n2 n3 s x c1 c2 Henc H1 H2 H3.
  destruct (utf_8_decode_prefix s _ c1 c2 Henc eq_refl)
    as (s1 & s2 & kept & Hdec1 & -> & Henc2).
  exists s1, s2. split; [| reflexivity].
  cbn [read_sequence].
  unfold DecodingStreamReader.read, DecodingStreamReader.__init__,
    IncrementalDecoder_decode, getincrementaldecoder.
  cbn [DecodingStreamReader.stream DecodingStreamReader.decoder buffer app].
  rewrite H1, Hdec1.
  cbn [DecodingStreamReader.stream DecodingStreamReader.decoder buffer].
  rewrite H2.
  cbn [DecodingStreamReader.stream DecodingStreamReader.decoder buffer].
  rewrite H3, (utf_8_decode_encode s2 _ Henc2). reflexivity.
Qed.

(** The euro sign cut after its first byte, with the text "x" in between. *)
Lemma read_passes_text_through_witness :
  exists t1 t2 : text,
    read_sequence
      (DecodingStreamReader.__init__
         {| chunks := [Bytes [0xE2]; Str [0x78]; Bytes [0x82; 0xAC]] |})
      [-1; -1; -1]
    = (inr [t1; [0x78]; t2],
       {| DecodingStreamReader.stream := {| chunks := [] |};
          DecodingStreamReader.decoder := {| buffer := [] |} |})
    /\ t1 ++ t2 = [0x20AC].
Proof.
  apply (read_passes_text_through ChunkedStream _
           {| chunks := [Bytes [0xE2]; Str [0x78]; Bytes [0x82; 0xAC]] |}
           {| chunks := [Str [0x78]; Bytes [0x82; 0xAC]] |}
           {| chunks := [Bytes [0x82; 0xAC]] |} {| chunks := [] |}
           (-1) (-1) (-1) [0x20AC] [0x78] [0xE2] [0x82; 0xAC]);
    reflexivity.
Defined.

(** ** The query builder and the methods that fill it *)

Lemma concat_cons_cons (sep x y : string) (l : list string) :
  String.concat sep (x :: y :: l) = (x ++ sep ++ String.concat sep (y :: l))%string.
Proof. reflexivity. Qed.

(** X8: nothing in a value is escaped, so a value is not told apart from
    further parameters: a [str] value that contains [&k=v] gives the URL that
    the value before the [&] and a parameter [k] with the value [v] behind it
    give. *)
Theorem api_url_params_does_not_escape :
  forall (self : CoinGeckoAPI.t) (api_url key value key' value' : string)
         (rest : dict pyval),
    CoinGeckoAPI.__api_url_params self api_url
      ((key, PStr (value ++ "&" ++ key' ++ "=" ++ value')) :: rest)
    = CoinGeckoAPI.__api_url_params self api_url
        ((key, PStr value) :: (key', PStr value') :: rest).
Proof.
  intros self api_url key value key' value' rest.
  rewrite !api_url_params_join. unfold url_with_query.
  do 2 f_equal. cbn [map].
  rewrite concat_cons_cons.
  destruct rest as [| item rest].
  - cbn [String.concat map]. unfold query_pair; cbn [fst snd py_str].
    now rewrite !append_assoc'.
  - cbn [map]. rewrite !concat_cons_cons.
    unfold query_pair; cbn [fst snd py_str].
    now rewrite !append_assoc'.
Qed.

Lemma dict_setitem_absent {V : Type} (d : dict V) (key : string) (value : V) :
  ~ In key (map fst d) -> dict_setitem d key value = d ++ [(key, value)].
Proof.
  induction d as [| [k v] d IH]; intros Habsent; [reflexivity |].
  cbn [dict_setitem map fst In app] in *.
  destruct (String.eqb_spec k key) as [-> | _]; [tauto |].
  rewrite IH by tauto. reflexivity.
Qed.

Lemma remove_spaces_no_space (s : string) :
  ~ In " "%char (list_ascii_of_string (remove_spaces s)).
Proof.
  induction s as [| c s IH]; cbn [remove_spaces]; [intros [] |].
  destruct (Ascii.eqb_spec c " "%char) as [-> | Hc]; [exact IH |].
  cbn [list_ascii_of_string In]. intros [Heq | Hin]; [now apply Hc | now apply IH].
Qed.

Lemma url_with_query_cons (api_url : string) (item : string * pyval)
    (items : dict pyval) :
  url_with_query api_url (item :: items)
  = (api_url ++ "?" ++ String.concat "&" (map query_pair (item :: items)))%string.
Proof. reflexivity. Qed.

Lemma url_with_query_snoc (api_url : string) (items : dict pyval)
    (item : string * pyval) :
  url_with_query api_url (items ++ [item])
  = (api_url ++ "?" ++ String.concat "&" (map query_pair (items ++ [item])))%string.
Proof. destruct items; reflexivity. Qed.

(** X9: [get_price] puts the parameters of the caller first and [ids] and
    [vs_currencies] behind them, in that order, and no blank is left in these
    two; a list given for one of them is joined by commas first. *)
Theorem get_price_query :
  forall (json_loads : text -> option json) (self : CoinGeckoAPI.t)
         (ids vs_currencies : listarg) (kwargs : dict pyval),
    ~ In "ids"%string (map fst kwargs) ->
    ~ In "vs_currencies"%string (map fst kwargs) ->
    let ids' := remove_spaces (list_args_to_comma_separated ids) in
    let vs' := remove_spaces (list_args_to_comma_separated vs_currencies) in
    CoinGeckoAPI.get_price json_loads self ids vs_currencies kwargs
    = CoinGeckoAPI.__request json_loads self
        (CoinGeckoAPI.api_base_url self ++ "simple/price" ++ "?"
         ++ String.concat "&"
              (map query_pair
                 (kwargs ++ [("ids", PStr ids'); ("vs_currencies", PStr vs')])))%string
    /\ ~ In " "%char (list_ascii_of_string ids')
    /\ ~ In " "%char (list_ascii_of_string vs').
Proof.
  intros json_loads self ids vs_currencies kwargs Hids Hvs ids' vs'.
  split; [| split; apply remove_spaces_no_space].
  unfold CoinGeckoAPI.get_price. fold ids' vs'.
  rewrite api_url_params_join.
  rewrite (dict_setitem_absent kwargs "ids" _ Hids).
  rewrite dict_setitem_absent.
  - rewrite <- app_assoc. cbn [app].
    change (kwargs ++ [("ids"%string, PStr ids'); ("vs_currencies"%string, PStr vs')])
      with (kwargs ++ [("ids"%string, PStr ids')] ++ [("vs_currencies"%string, PStr vs')]).
    rewrite app_assoc, url_with_query_snoc, append_assoc'. reflexivity.
  - rewrite map_app, in_app_iff. cbn [map fst In].
    intros [Hin | [Heq | []]]; [now apply Hvs | discriminate].
Qed.

(** Two ids in a list, the currencies with a blank, one parameter more. *)
Lemma get_price_query_witness :
  CoinGeckoAPI.get_price RefJson.loads default_client
    (ArgList ["bitcoin"; "ethereum"]%string) (ArgStr "usd, eur")
    [("include_market_cap"%string, PBool true)]
  = CoinGeckoAPI.__request RefJson.loads default_client
      "https://api.coingecko.com/api/v3/simple/price?include_market_cap=True&ids=bitcoin,ethereum&vs_currencies=usd,eur"
  /\ ~ In " "%char (list_ascii_of_string "bitcoin,ethereum")
  /\ ~ In " "%char (list_ascii_of_string "usd,eur").
Proof.
  apply (get_price_query RefJson.loads default_client
           (ArgList ["bitcoin"; "ethereum"]%string) (ArgStr "usd, eur")
           [("include_market_cap"%string, PBool true)]);
    simpl; intros [H | []]; discriminate H.
Defined.

(** X10: the methods that take a required parameter into [kwargs] put it
    last in the query, behind the parameters of the caller:
    [get_coins_markets] its [vs_currency], [get_coin_history_by_id] its
    [date] and [get_exchanges_volume_chart_by_id] its [days]. *)
Theorem required_parameter_goes_last :
  forall (json_loads : text -> option json) (self : CoinGeckoAPI.t)
         (id value : pyarg) (kwargs : dict pyarg),
    ~ In "vs_currency"%string (map fst kwargs) ->
    ~ In "date"%string (map fst kwargs) ->
    ~ In "days"%string (map fst kwargs) ->
    let sent := kwargs_to_comma_separated kwargs in
    let value' := arg_to_comma_separated value in
    let id' := py_str (arg_to_comma_separated id) in
    CoinGeckoAPI.get_coins_markets json_loads self value kwargs
    = CoinGeckoAPI.__request json_loads self
        (url_with_query (CoinGeckoAPI.api_base_url self ++ "coins/markets")
           (sent ++ [("vs_currency"%string, value')]))
    /\ CoinGeckoAPI.get_coin_history_by_id json_loads self id value kwargs
       = CoinGeckoAPI.__request json_loads self
           (url_with_query
              (CoinGeckoAPI.api_base_url self ++ "coins/" ++ id' ++ "/history")
              (sent ++ [("date"%string, value')]))
    /\ CoinGeckoAPI.get_exchanges_volume_chart_by_id json_loads self id value kwargs
       = CoinGeckoAPI.__request json_loads self
           (url_with_query
              (CoinGeckoAPI.api_base_url self ++ "exchanges/" ++ id'
               ++ "/volume_chart")
              (sent ++ [("days"%string, value')])).
Proof.
  intros json_loads self id value kwargs Hvs Hdate Hdays sent value' id'.
  assert (Hkeys : map fst sent = map fst kwargs).
  { unfold sent, kwargs_to_comma_separated. rewrite map_map. reflexivity. }
  unfold CoinGeckoAPI.get_coins_markets, CoinGeckoAPI.get_coin_history_by_id,
    CoinGeckoAPI.get_exchanges_volume_chart_by_id.
  fold sent value' id'.
  rewrite !api_url_params_join, !dict_setitem_absent by now rewrite Hkeys.
  repeat split.
Qed.

(** One value for the required parameter of each, with one parameter more. *)
Lemma required_parameter_goes_last_witness :
  let kwargs := [("localization"%string, Scalar (PBool false))] in
  let sent := [("localization"%string, PBool false)] in
  CoinGeckoAPI.get_coins_markets RefJson.loads default_client
    (Scalar (PStr "30-12-2017")) kwargs
  = CoinGeckoAPI.__request RefJson.loads default_client
      (url_with_query "https://api.coingecko.com/api/v3/coins/markets"
         (sent ++ [("vs_currency"%string, PStr "30-12-2017")]))
  /\ CoinGeckoAPI.get_coin_history_by_id RefJson.loads default_client
       (Scalar (PStr "bitcoin")) (Scalar (PStr "30-12-2017")) kwargs
     = CoinGeckoAPI.__request RefJson.loads default_client
         (url_with_query "https://api.coingecko.com/api/v3/coins/bitcoin/history"
            (sent ++ [("date"%string, PStr "30-12-2017")]))
  /\ CoinGeckoAPI.get_exchanges_volume_chart_by_id RefJson.loads default_client
       (Scalar (PStr "bitcoin")) (Scalar (PStr "30-12-2017")) kwargs
     = CoinGeckoAPI.__request RefJson.loads default_client
         (url_with_query
            "https://api.coingecko.com/api/v3/exchanges/bitcoin/volume_chart"
            (sent ++ [("days"%string, PStr "30-12-2017")])).
Proof.
  apply (required_parameter_goes_last RefJson.loads default_client
           (Scalar (PStr "bitcoin")) (Scalar (PStr "30-12-2017"))
           [("localization"%string, Scalar (PBool false))]);
    simpl; intros [H | []]; discriminate H.
Defined.

(** X11: the methods whose URL template has a query of its own give further
    parameters a second [?] and not an [&]: [__api_url_params] adds its [?]
    to whatever URL it is given.  So for [get_coin_market_chart_by_id] and
    [get_coin_ohlc_by_id], and likewise for the range and the contract
    variants. *)
Theorem template_query_gets_a_second_question_mark :
  forall (json_loads : text -> option json) (self : CoinGeckoAPI.t)
         (id contract vs_currency days from_timestamp to_timestamp : pyarg)
         (item : string * pyarg) (items : dict pyarg),
    let base := CoinGeckoAPI.api_base_url self in
    let str := fun a : pyarg => py_str (arg_to_comma_separated a) in
    let more :=
      String.concat "&"
        (map query_pair (kwargs_to_comma_separated (item :: items))) in
    CoinGeckoAPI.get_coin_market_chart_by_id json_loads self
      id vs_currency days (item :: items)
    = CoinGeckoAPI.__request json_loads self
        (base ++ "coins/" ++ str id ++ "/market_chart?vs_currency="
         ++ str vs_currency ++ "&days=" ++ str days ++ "?" ++ more)%string
    /\ CoinGeckoAPI.get_coin_ohlc_by_id json_loads self
         id vs_currency days (item :: items)
       = CoinGeckoAPI.__request json_loads self
           (base ++ "coins/" ++ str id ++ "/ohlc?vs_currency="
            ++ str vs_currency ++ "&days=" ++ str days ++ "?" ++ more)%string
    /\ CoinGeckoAPI.get_coin_market_chart_range_by_id json_loads self
         id vs_currency from_timestamp to_timestamp (item :: items)
       = CoinGeckoAPI.__request json_loads self
           (base ++ "coins/" ++ str id ++ "/market_chart/range?vs_currency="
            ++ str vs_currency ++ "&from=" ++ str from_timestamp
            ++ "&to=" ++ str to_timestamp ++ "?" ++ more)%string
    /\ CoinGeckoAPI.get_coin_market_chart_from_contract_address_by_id json_loads
         self id contract vs_currency days (item :: items)
       = CoinGeckoAPI.__request json_loads self
           (base ++ "coins/" ++ str id ++ "/contract/" ++ str contract
            ++ "/market_chart/?vs_currency=" ++ str vs_currency
            ++ "&days=" ++ str days ++ "?" ++ more)%string
    /\ CoinGeckoAPI.get_coin_market_chart_range_from_contract_address_by_id
         json_loads self id contract vs_currency from_timestamp to_timestamp
         (item :: items)
       = CoinGeckoAPI.__request json_loads self
           (base ++ "coins/" ++ str id ++ "/contract/" ++ str contract
            ++ "/market_chart/range?vs_currency=" ++ str vs_currency
            ++ "&from=" ++ str from_timestamp ++ "&to=" ++ str to_timestamp
            ++ "?" ++ more)%string.
Proof.
  intros json_loads self id contract vs_currency days from_timestamp to_timestamp
    item items base str more.
  unfold CoinGeckoAPI.get_coin_market_chart_by_id, CoinGeckoAPI.get_coin_ohlc_by_id,
    CoinGeckoAPI.get_coin_market_chart_range_by_id,
    CoinGeckoAPI.get_coin_market_chart_from_contract_address_by_id,
    CoinGeckoAPI.get_coin_market_chart_range_from_contract_address_by_id.
  rewrite !api_url_params_join.
  change (kwargs_to_comma_separated (item :: items))
    with ((fst item, arg_to_comma_separated (snd item))
          :: kwargs_to_comma_separated items) in *.
  rewrite !url_with_query_cons. fold base more.
  repeat split; f_equal; unfold str; now rewrite !append_assoc'.
Qed.

(** ** All the public methods *)

Lemma prefix_append (a b : string) : prefix a (a ++ b) = true.
Proof.
  induction a as [| c a IH]; cbn [append prefix]; [now destruct b |].
  destruct (ascii_dec c c) as [_ | Hc]; [exact IH | now elim Hc].
Qed.

Lemma prefix_refl (a : string) : prefix a a = true.
Proof.
  induction a as [| c a IH]; cbn [prefix]; [reflexivity |].
  destruct (ascii_dec c c) as [_ | Hc]; [exact IH | now elim Hc].
Qed.

Lemma prefix_url_with_query (base path : string) (params : dict pyval) :
  prefix base (url_with_query (base ++ path) params) = true.
Proof.
  destruct params as [| item items]; unfold url_with_query;
    rewrite ?append_assoc'; apply prefix_append.
Qed.

Lemma run_cases :
  forall (json_loads : text -> option json) (self : CoinGeckoAPI.t) (c : call),
    if raises_before_request c
    then exists e : exn, forall w : world, run json_loads self c w = (inl e, w)
    else exists url : string,
           prefix (CoinGeckoAPI.api_base_url self) url = true
           /\ run json_loads self c = CoinGeckoAPI.__request json_loads self url.
Proof.
  intros json_loads self c.
  destruct c; cbn [raises_before_request run];
    try (eexists; intros w; reflexivity);
    (eexists; split; [| cbv beta delta
       [CoinGeckoAPI.ping CoinGeckoAPI.get_price
        CoinGeckoAPI.get_supported_vs_currencies CoinGeckoAPI.get_exchange_rates
        CoinGeckoAPI.get_token_price CoinGeckoAPI.get_coins
        CoinGeckoAPI.get_coins_markets CoinGeckoAPI.get_coin_by_id
        CoinGeckoAPI.get_coin_ticker_by_id CoinGeckoAPI.get_coin_history_by_id
        CoinGeckoAPI.get_coin_market_chart_by_id
        CoinGeckoAPI.get_coin_market_chart_range_by_id
        CoinGeckoAPI.get_coin_status_updates_by_id CoinGeckoAPI.get_coin_ohlc_by_id
        CoinGeckoAPI.get_coin_info_from_contract_address_by_id
        CoinGeckoAPI.get_coin_market_chart_from_contract_address_by_id
        CoinGeckoAPI.get_coin_market_chart_range_from_contract_address_by_id
        CoinGeckoAPI.get_exchanges_list CoinGeckoAPI.get_exchanges_id_name_list
        CoinGeckoAPI.get_exchanges_by_id CoinGeckoAPI.get_exchanges_tickers_by_id
        CoinGeckoAPI.get_exchanges_status_updates_by_id
        CoinGeckoAPI.get_exchanges_volume_chart_by_id
        CoinGeckoAPI.get_finance_platforms CoinGeckoAPI.get_finance_products
        CoinGeckoAPI.get_indexes CoinGeckoAPI.get_indexes_by_id
        CoinGeckoAPI.get_indexes_list CoinGeckoAPI.get_derivatives
        CoinGeckoAPI.get_derivatives_exchanges
        CoinGeckoAPI.get_derivatives_exchanges_by_id
        CoinGeckoAPI.get_derivatives_exchanges_list
        CoinGeckoAPI.get_status_updates CoinGeckoAPI.get_events
        CoinGeckoAPI.get_events_countries CoinGeckoAPI.get_events_types
        CoinGeckoAPI.get_search_trending] zeta;
       rewrite ?api_url_params_join; reflexivity]);
    first [ apply prefix_url_with_query | apply prefix_append ].
Qed.

(** X12: every public method is the executor run on one URL, and that URL
    begins with the base URL of the client; but for [get_coins_list],
    [get_global] and [get_global_decentralized_finance_defi], which raise
    the same exception on every call and leave the world as it is. *)
Theorem every_method_is_one_request :
  forall (json_loads : text -> option json) (self : CoinGeckoAPI.t) (c : call),
    if raises_before_request c
    then exists e : exn, forall w : world, run json_loads self c w = (inl e, w)
    else exists url : string,
           prefix (CoinGeckoAPI.api_base_url self) url = true
           /\ run json_loads self c = CoinGeckoAPI.__request json_loads self url.
Proof. exact run_cases. Qed.

(** X13: whatever method is called and whatever the remote side answers, all
    the GETs of the call are for one URL under the base URL of the client,
    there are no more of them than the retry options allow, and a method
    that returns made one at least. *)
Theorem every_method_requests_under_base :
  forall (json_loads : text -> option json) (self : CoinGeckoAPI.t)
         (c : call) (w : world),
    exists (url : string) (n : nat),
      prefix (CoinGeckoAPI.api_base_url self) url = true
      /\ requested (snd (run json_loads self c w)) = requested w ++ repeat url n
      /\ (n <= Nat.max 1 (attempts (CoinGeckoAPI.retry_options self)))%nat
      /\ ((exists j : json, fst (run json_loads self c w) = inr j) -> (1 <= n)%nat).
Proof.
  intros json_loads self c w.
  pose proof (run_cases json_loads self c) as Hc.
  destruct (raises_before_request c).
  - destruct Hc as [e He]. exists (CoinGeckoAPI.api_base_url self), 0%nat.
    rewrite He. cbn [fst snd repeat]. rewrite app_nil_r.
    repeat split; [| lia | intros [j Hj]; discriminate].
    apply prefix_refl.
  - destruct Hc as (url & Hprefix & ->).
    destruct (attempts_made_request json_loads self url w) as (n & Hn & Hlog & _).
    exists url, n. repeat split; [assumption | assumption | lia | lia].
Qed.

(** ** Retries that end in an answer *)

Lemma do_request_after_retries (opts : ExponentialRetry) (url : string) (k : nat) :
  forall (retries : nat) (w : world) (r : ClientResponse),
    (k <= retries)%nat ->
    (forall i : nat, (i < k)%nat ->
       exists ri : ClientResponse,
         remote w (length (requested w) + i)%nat url = Responded ri
         /\ retryable opts (status ri) = true) ->
    remote w (length (requested w) + k)%nat url = Responded r ->
    retryable opts (status r) = false ->
    RetryClient_do_request opts url retries w
    = (inr r, {| remote := remote w;
                 requested := requested w ++ repeat url (S k) |}).
Proof.
  induction k as [| k IH]; intros retries w r Hk Hfirst Hlast Hr.
  - rewrite Nat.add_0_r in Hlast. now apply do_request_once.
  - destruct retries as [| retries]; [lia |].
    destruct (Hfirst 0%nat ltac:(lia)) as (r0 & Hr0 & Hretry0).
    rewrite Nat.add_0_r in Hr0.
    cbn [RetryClient_do_request http_get]. rewrite Hr0, Hretry0.
    rewrite (IH retries _ r); cbn [remote requested].
    + now rewrite <- app_assoc.
    + lia.
    + intros i Hi. rewrite length_app. cbn [length].
      destruct (Hfirst (S i) ltac:(lia)) as (ri & Hri & Hretry).
      exists ri. split; [| assumption].
      rewrite <- Hri. f_equal. lia.
    + rewrite length_app. cbn [length]. rewrite <- Hlast. f_equal. lia.
    + assumption.
Qed.

(** X14: when the first [k] answers have a retryable status, with [k] less
    than the number of attempts, and the next answer has not, passes the
    status check and carries a JSON document, the executor returns that
    document after [k + 1] GETs of the URL: the answers that were retried
    leave no trace in the result. *)
Theorem request_returns_after_retries :
  forall (json_loads : text -> option json) (self : CoinGeckoAPI.t)
         (url : string) (w : world) (k : nat) (r : ClientResponse)
         (t : text) (j : json),
    (k < attempts (CoinGeckoAPI.retry_options self))%nat ->
    (forall i : nat, (i < k)%nat ->
       exists ri : ClientResponse,
         remote w (length (requested w) + i)%nat url = Responded ri
         /\ retryable (CoinGeckoAPI.retry_options self) (status ri) = true) ->
    remote w (length (requested w) + k)%nat url = Responded r ->
    retryable (CoinGeckoAPI.retry_options self) (status r) = false ->
    status r < 400 ->
    body_text r = inr t ->
    json_loads t = Some j ->
    CoinGeckoAPI.__request json_loads self url w
    = (inr j, {| remote := remote w;
                 requested := requested w ++ repeat url (S k) |}).
Proof.
  intros json_loads self url w k r t j Hk Hfirst Hlast Hr Hstatus Hbody Hjson.
  apply (request_returns_content json_loads self url w _ r t j); try assumption.
  unfold RetryClient_get.
  apply do_request_after_retries; try assumption. lia.
Qed.

(** Two answers 503 and then 200 with [{"bitcoin": {"usd": 50000}}], against
    the client of [__init__]. *)
Lemma request_returns_after_retries_witness :
  CoinGeckoAPI.__request RefJson.loads default_client "https://example.org/ping"
    (fresh flaky)
  = (inr (JDict [(text_of_string "bitcoin",
                  JDict [(text_of_string "usd", JInt 50000)])]),
     {| remote := flaky;
        requested := repeat "https://example.org/ping"%string 3 |}).
Proof.
  apply (request_returns_after_retries RefJson.loads default_client
           "https://example.org/ping" (fresh flaky) 2
           {| status := 200; content := {| unread := body_price |} |}
           body_price);
    try first [reflexivity | simpl; lia].
  intros i Hi. exists {| status := 503; content := {| unread := body_oops |} |}.
  split; [| reflexivity].
  destruct i as [| [| i]]; [reflexivity | reflexivity | lia].
Defined.

(** ** Malformed input *)

Lemma encode_codepoint_bytes (c x : Z) :
  is_scalar c = true -> In x (encode_codepoint c) ->
  0 <= x <= 0xF4 /\ x <> 0xC0 /\ x <> 0xC1.
Proof.
  intros Hc%is_scalar_spec. unfold encode_codepoint.
  destruct (Z.ltb_spec c 0x80); [| destruct (Z.ltb_spec c 0x800);
    [| destruct (Z.ltb_spec c 0x10000)]];
    cbn [In]; intros Hin;
    repeat (destruct Hin as [<- | Hin]; [arith |]); destruct Hin.
Qed.

Lemma utf_8_encode_bytes (s : text) :
  forall (enc : bytes) (x : Z),
    utf_8_encode s = Some enc -> In x enc ->
    0 <= x <= 0xF4 /\ x <> 0xC0 /\ x <> 0xC1.
Proof.
  induction s as [| c s IH]; intros enc x Henc Hin; cbn [utf_8_encode] in Henc.
  - injection Henc as <-. destruct Hin.
  - destruct (is_scalar c) eqn:Hc; [| discriminate].
    destruct (utf_8_encode s) as [enc' |]; [| discriminate].
    injection Henc as <-. apply in_app_or in Hin as [Hin | Hin].
    + exact (encode_codepoint_bytes c x Hc Hin).
    + exact (IH enc' x eq_refl Hin).
Qed.

Lemma utf_8_step_truncated_bytes (bs : bytes) (x : Z) :
  utf_8_step bs = StepTruncated -> In x bs ->
  0 <= x <= 0xF4 /\ x <> 0xC0 /\ x <> 0xC1.
Proof.
  unfold utf_8_step. intros Hstep. destruct bs as [| b0 r0]; [discriminate |].
  step_cases Hstep; test_facts; cbn [In]; intros Hin;
    repeat (destruct Hin as [<- | Hin]; [lia |]); destruct Hin.
Qed.

(** X15: the decoder is strict.  When the bytes handed to [read] contain a
    byte that no UTF-8 text contains, C0, C1 or F5 and above, [read] raises
    [UnicodeDecodeError], whatever was waiting in the decoder; the decoder
    keeps what it had, and the bytes are gone from the stream. *)
Theorem read_raises_on_impossible_byte :
  forall (St : Type) (HS : Stream St) (self : DecodingStreamReader.t St)
         (n : Z) (b : bytes) (st' : St) (x : Z),
    stream_read (DecodingStreamReader.stream self) n = (Bytes b, st') ->
    In x b ->
    x = 0xC0 \/ x = 0xC1 \/ 0xF5 <= x ->
    exists d : bytes,
      DecodingStreamReader.read self n
      = (inl (UnicodeDecodeError d),
         {| DecodingStreamReader.stream := st';
            DecodingStreamReader.decoder := DecodingStreamReader.decoder self |}).
Proof.
  intros St HS self n b st' x Hstream Hin Hx.
  unfold DecodingStreamReader.read, IncrementalDecoder_decode.
  rewrite Hstream.
  destruct (utf_8_decode (buffer (DecodingStreamReader.decoder self) ++ b))
    as [e | [t rest]] eqn:Hdec.
  - destruct (utf_8_decode_loop_error _ _ _ Hdec) as [d ->]. now exists d.
  - exfalso.
    destruct (utf_8_decode_loop_sound _ _ _ _ (le_n _) Hdec)
      as (enc & Henc & Hdata & Hrest).
    assert (Hin' : In x (enc ++ rest))
      by (rewrite <- Hdata; apply in_or_app; now right).
    apply in_app_or in Hin' as [Hin' | Hin'].
    + pose proof (utf_8_encode_bytes t enc x Henc Hin'). lia.
    + destruct Hrest as [-> | Hrest]; [destruct Hin' |].
      pose proof (utf_8_step_truncated_bytes rest x Hrest Hin'). lia.
Qed.

(** The text "ok" with the byte FF behind it. *)
Lemma read_raises_on_impossible_byte_witness :
  exists d : bytes,
    DecodingStreamReader.read
      (DecodingStreamReader.__init__ {| unread := [0x6F; 0x6B; 0xFF] |}) (-1)
    = (inl (UnicodeDecodeError d),
       {| DecodingStreamReader.stream := {| unread := [] |};
          DecodingStreamReader.decoder := getincrementaldecoder |}).
Proof.
  apply (read_raises_on_impossible_byte StreamReader _
           (DecodingStreamReader.__init__ {| unread := [0x6F; 0x6B; 0xFF] |})
           (-1) [0x6F; 0x6B; 0xFF] {| unread := [] |} 0xFF).
  - reflexivity.
  - simpl; lia.
  - lia.
Defined.

(** ** The decoder at the end of its input *)

(** What [decode] does with input that ends inside a sequence, case by case:
    a cut sequence that can still be completed is kept, and so are the first
    two bytes of an encoded surrogate; every other malformed sequence raises
    at once, and the kept bytes of a surrogate raise with the next byte. *)
Example utf_8_decode_at_the_end_of_input :
  utf_8_decode [0x6F; 0x6B; 0xE2; 0x82] = inr ([0x6F; 0x6B], [0xE2; 0x82])
  /\ utf_8_decode [0x6F; 0x6B; 0xED; 0xA0] = inr ([0x6F; 0x6B], [0xED; 0xA0])
  /\ utf_8_decode [0x41; 0xED; 0xBF] = inr ([0x41], [0xED; 0xBF])
  /\ utf_8_decode [0xED; 0xA0; 0x80] = inl (UnicodeDecodeError [0xED; 0xA0; 0x80])
  /\ utf_8_decode [0x41; 0xE0; 0x80] = inl (UnicodeDecodeError [0xE0; 0x80])
  /\ utf_8_decode [0x41; 0xF4; 0x90] = inl (UnicodeDecodeError [0xF4; 0x90])
  /\ utf_8_decode [0x41; 0xF0; 0x8F] = inl (UnicodeDecodeError [0xF0; 0x8F])
  /\ utf_8_decode [0xFF] = inl (UnicodeDecodeError [0xFF]).
Proof. repeat split. Qed.

(** The executor on bodies that end in the first two bytes of an encoded
    surrogate: they wait in the decoder, and the text before them is
    parsed. *)
Example request_on_a_cut_surrogate :
  fst (CoinGeckoAPI.__request RefJson.loads default_client
         "https://example.org/ping"
         (fresh (always (respond 404 (body_not_found ++ [0xED; 0xA0])))))
  = inl (ValueError
           (JDict [(text_of_string "error", JStr (text_of_string "not found"))]))
  /\ fst (CoinGeckoAPI.__request RefJson.loads default_client
            "https://example.org/ping"
            (fresh (always (respond 200 (text_of_string "{}" ++ [0xED; 0xA0])))))
     = inr (JDict []).
Proof. split; reflexivity. Qed.

(** ** The status check and a body that is not text *)

